(** * kvdi: the audio Buffer orchestrator and the creation-spec annotation helpers

    A shallow embedding of [pkg/util/audio/buffer.go] (package [audio]) and
    of the annotation helpers of package [k8sutil], with the properties of
    the specification stated and proved over them.

    Go values are modelled as follows.
    - [error] is an interface value that may be [nil]: [option Error], an
      [Error] being identified with its message ([err.Error()]).
    - [*gst.Pipeline] is a pointer that may be [nil]: [option Pipeline].  The
      Buffer is the only owner of its three pipelines, so the pointee is
      stored by value in the field and written back after each method call.
    - [int] and [int64] are [Z]; the one place where the code multiplies
      64-bit values ([time.Second * time.Duration(interval)]) wraps.
    - [map[string]string] that may be [nil]: [option (gmap string string)].
    - Everything the code does to the outside world (PulseAudio modules,
      gst-launch processes, the logger, the ticker, /proc) is recorded in a
      trace of events; what the outside world answers is read from an
      environment [Env]. *)

From Stdlib Require Import ZArith String Ascii List Lia.
From Stdlib Require Import DecimalString HexadecimalString.
From stdpp Require Import base option list strings gmap.

Local Open Scope Z_scope.
Local Open Scope string_scope.
Local Open Scope list_scope.

(** ** Go standard library fragments used by the code *)

Module gostd.

(** [strconv.FormatInt(n, 16)]: lower-case digits, a leading '-' for
    negative numbers. *)
Definition FormatInt16 (n : Z) : string :=
  HexadecimalString.NilZero.string_of_int (Z.to_hex_int n).

(** The [%d] verb of [fmt] on an integer. *)
Definition FormatInt10 (n : Z) : string :=
  DecimalString.NilZero.string_of_int (Z.to_int n).

(** [strings.ToUpper] on the ASCII range (all that [FormatInt] produces). *)
Definition upper_ascii (c : ascii) : ascii :=
  let n := nat_of_ascii c in
  if (Nat.leb 97 n && Nat.leb n 122)%bool then ascii_of_nat (n - 32) else c.

Fixpoint ToUpper (s : string) : string :=
  match s with
  | EmptyString => EmptyString
  | String c s' => String (upper_ascii c) (ToUpper s')
  end.

(** [strings.Contains(s, substr)]. *)
Fixpoint Contains (s substr : string) : bool :=
  if String.prefix substr s then true
  else match s with
       | EmptyString => false
       | String _ s' => Contains s' substr
       end.

(** [strings.Join(elems, sep)]. *)
Fixpoint Join (elems : list string) (sep : string) : string :=
  match elems with
  | [] => ""
  | [e] => e
  | e :: rest => e +:+ sep +:+ Join rest sep
  end.

(** Two's-complement wrap-around of a 64-bit signed integer. *)
Definition wrap64 (z : Z) : Z :=
  (z + 2 ^ 63) mod 2 ^ 64 - 2 ^ 63.

(** [time.Second], in nanoseconds. *)
Definition Second : Z := 1000000000.

End gostd.

(** A non-nil Go [error], identified with its message. *)
Record Error := errors_New { Error_msg : string }.

Global Instance Error_eq_dec : EqDecision Error.
Proof. solve_decision. Defined.

(** A [logr.Logger]: the chain of names given by [WithName]. *)
Record Logger := mkLogger { log_names : list string }.

Definition WithName (l : Logger) (name : string) : Logger :=
  mkLogger (log_names l ++ [name]).

(** ** Package gst: the pipeline builder *)

Module gst.

(** Modelled from the spec: package [gst] is not among the sources.  A
    stage descriptor per builder method the Buffer calls ("an ordered
    sequence of stage descriptors, each an opaque command fragment plus
    typed parameters"). *)
Inductive Stage : Type :=
| PulseSrc (server device : string) (channels rate : Z)
| TCPSrc (host : string) (port : Z) (listen : bool)
| FdSrc (fd : Z)
| Caps (name : string) (fields : list (string * string))
| Plugin (expr : string)
| Cutter
| VorbisEncode
| OpusEncode
| LameEncode
| OpusDecode (plc : bool)
| OggMux
| WebmMux
| OggDemux
| FdSink (fd : Z)
| FileSink (path : string) (async : bool).

(** Modelled from the spec: the Pipeline of package [gst]: "identity, an
    ordered sequence of stage descriptors, a process handle, ... and a
    closed flag". *)
Record Pipeline := mkPipeline {
  user : string;
  logger : Logger;
  stages : list Stage;
  started : bool;
  closed : bool
}.

(** Modelled from the spec: [gst.NewPipeline]; nothing is spawned and
    nothing is closed yet. *)
Definition NewPipeline (u : string) (l : Logger) : Pipeline :=
  mkPipeline u l [] false false.

(** Modelled from the spec: every [WithX] "appends a stage descriptor and
    returns the same builder". *)
Definition With (st : Stage) (p : Pipeline) : Pipeline :=
  mkPipeline (user p) (logger p) (stages p ++ [st]) (started p) (closed p).

Definition WithPulseSrc (server device : string) (channels rate : Z) :=
  With (PulseSrc server device channels rate).
Definition WithTCPSrc (host : string) (port : Z) (listen : bool) :=
  With (TCPSrc host port listen).
Definition WithFdSrc (fd : Z) := With (FdSrc fd).
Definition WithCaps (name : string) (fields : list (string * string)) :=
  With (Caps name fields).
Definition WithPlugin (expr : string) := With (Plugin expr).
Definition WithCutter := With Cutter.
Definition WithVorbisEncode := With VorbisEncode.
Definition WithOpusEncode := With OpusEncode.
Definition WithLameEncode := With LameEncode.
Definition WithOpusDecode (plc : bool) := With (OpusDecode plc).
Definition WithOggMux := With OggMux.
Definition WithWebmMux := With WebmMux.
Definition WithOggDemux := With OggDemux.
Definition WithFdSink (fd : Z) := With (FdSink fd).
Definition WithFileSink (path : string) (async : bool) :=
  With (FileSink path async).

(** Modelled from the spec: [Pipeline.Start] "spawns it; returns an error
    if the process fails to start".  [spawn] is the operating system's
    answer. *)
Definition Start (spawn : Pipeline -> option Error) (p : Pipeline)
  : option Error * Pipeline :=
  match spawn p with
  | Some e => (Some e, p)
  | None => (None, mkPipeline (user p) (logger p) (stages p) true (closed p))
  end.

(** Modelled from the spec: [Pipeline.IsClosed] is "true once Close has
    fully completed for this pipeline". *)
Definition IsClosed (p : Pipeline) : bool := closed p.

(** Modelled from the spec: [Pipeline.Close] is "idempotent; terminates
    the process (if running) and releases its stream handles".  [kill] is
    the operating system's answer when the process is terminated. *)
Definition Close (kill : Pipeline -> option Error) (p : Pipeline)
  : option Error * Pipeline :=
  if closed p then (None, p)
  else match kill p with
       | Some e => (Some e, p)
       | None => (None, mkPipeline (user p) (logger p) (stages p) (started p) true)
       end.

(** Modelled from the spec: [Pipeline.Wait] "blocks until the process
    exits; returns an error reflecting non-zero exit status". *)
Definition Wait (exit : Pipeline -> option Error) (p : Pipeline)
  : option Error :=
  exit p.

End gst.

(** ** Package pa: the virtual-device manager *)

Module pa.

(** Modelled from the spec: package [pa] is not among the sources.  The
    DeviceManager holds "identity, set of provisioned device names, and
    the designated default source". *)
Record DeviceManager := mkDeviceManager {
  logger : Logger;
  user : string;
  devices : list string;
  defaultSource : option string
}.

Definition NewDeviceManager (l : Logger) (u : string) : DeviceManager :=
  mkDeviceManager l u [] None.

(** Modelled from the spec: a successful [AddSink] or [AddSource] records
    the device; a successful [SetDefaultSource] records the default. *)
Definition provision (name : string) (d : DeviceManager) : DeviceManager :=
  mkDeviceManager (logger d) (user d) (devices d ++ [name]) (defaultSource d).

Definition designate (name : string) (d : DeviceManager) : DeviceManager :=
  mkDeviceManager (logger d) (user d) (devices d) (Some name).

(** Modelled from the spec: [Destroy] "unconditionally attempts to release
    every provisioned device", and reports nothing. *)
Definition Destroy (d : DeviceManager) : DeviceManager :=
  mkDeviceManager (logger d) (user d) [] None.

End pa.

(** ** Package audio: the Buffer *)

Module audio.

(** [type Codec string]: any string is a value of the type. *)
Definition Codec := string.
Definition CodecOpus : Codec := "opus".
Definition CodecVorbis : Codec := "vorbis".
Definition CodecMP3 : Codec := "mp3".
Definition CodecRaw : Codec := "raw".

Record Buffer := mkBuffer {
  logger : Logger;
  deviceManager : pa.DeviceManager;
  pbkPipeline : option gst.Pipeline;
  bufPipeline : option gst.Pipeline;
  recPipeline : option gst.Pipeline;
  channels : Z;
  sampleRate : Z;
  userID : string;
  nullSinkID : string;
  inputDeviceID : string;
  closed : bool
}.

(** The fields of the struct literal that are not listed keep their zero
    value: nil pipelines, empty strings, [closed = false]. *)
Definition NewBuffer (l : Logger) (userID : string) : Buffer :=
  {| logger := WithName l "audio_buffer";
     deviceManager := pa.NewDeviceManager (WithName l "pa_devices") userID;
     pbkPipeline := None;
     bufPipeline := None;
     recPipeline := None;
     channels := 2;
     sampleRate := 24000;
     userID := userID;
     nullSinkID := "";
     inputDeviceID := "";
     closed := false |}.

(** The three pipeline fields. *)
Inductive Slot : Type := Pbk | Buf | Rec.

Definition field (sl : Slot) (b : Buffer) : option gst.Pipeline :=
  match sl with
  | Pbk => pbkPipeline b
  | Buf => bufPipeline b
  | Rec => recPipeline b
  end.

Definition assign (sl : Slot) (p : option gst.Pipeline) (b : Buffer) : Buffer :=
  {| logger := logger b;
     deviceManager := deviceManager b;
     pbkPipeline := match sl with Pbk => p | _ => pbkPipeline b end;
     bufPipeline := match sl with Buf => p | _ => bufPipeline b end;
     recPipeline := match sl with Rec => p | _ => recPipeline b end;
     channels := channels b;
     sampleRate := sampleRate b;
     userID := userID b;
     nullSinkID := nullSinkID b;
     inputDeviceID := inputDeviceID b;
     closed := closed b |}.

Definition with_deviceManager (d : pa.DeviceManager) (b : Buffer) : Buffer :=
  {| logger := logger b;
     deviceManager := d;
     pbkPipeline := pbkPipeline b;
     bufPipeline := bufPipeline b;
     recPipeline := recPipeline b;
     channels := channels b;
     sampleRate := sampleRate b;
     userID := userID b;
     nullSinkID := nullSinkID b;
     inputDeviceID := inputDeviceID b;
     closed := closed b |}.

Definition with_closed (c : bool) (b : Buffer) : Buffer :=
  {| logger := logger b;
     deviceManager := deviceManager b;
     pbkPipeline := pbkPipeline b;
     bufPipeline := bufPipeline b;
     recPipeline := recPipeline b;
     channels := channels b;
     sampleRate := sampleRate b;
     userID := userID b;
     nullSinkID := nullSinkID b;
     inputDeviceID := inputDeviceID b;
     closed := c |}.

(** *** The outside world *)

(** What the Buffer does to the outside world, in the order it does it.
    A pipeline method is recorded with the field it was called through. *)
Inductive Event : Type :=
| PaAddSink (name descr : string)
| PaAddSource (name descr fifo format : string) (channels rate : Z)
| PaSetDefaultSource (name : string)
| PaDestroy
| GstStart (sl : Slot)
| GstClose (sl : Slot)
| GstWait (sl : Slot)
| LogInfo (l : Logger) (msg : string)
| LogError (l : Logger) (err : Error) (msg : string)
| Go
| Tick (period : Z)
| ProcOpen (path : string).

(** The events that are calls of the DeviceManager. *)
Definition paEvent (e : Event) : bool :=
  match e with
  | PaAddSink _ _ | PaAddSource _ _ _ _ _ _ | PaSetDefaultSource _ | PaDestroy => true
  | _ => false
  end.

(** One attempt to open, read and close a file under /proc. *)
Inductive ProcRead : Type :=
| OpenFails (err : Error)
| ReadFails (err : Error)
| CloseFails (err : Error)
| Contents (body : string).

(** What the outside world answers. *)
Record Env := mkEnv {
  pa_AddSink : string -> string -> option Error;
  pa_AddSource : string -> string -> string -> string -> Z -> Z -> option Error;
  pa_SetDefaultSource : string -> option Error;
  gst_spawn : gst.Pipeline -> option Error;
  gst_kill : gst.Pipeline -> option Error;
  gst_exit : gst.Pipeline -> option Error;
  gst_pid : gst.Pipeline -> Z;
  (** the contents of a /proc file at the k-th tick of the ticker *)
  proc_read : string -> nat -> ProcRead
}.

(** *** The monad of Buffer methods

    A method runs on the receiver and the trace.  It returns, or panics
    (a nil pointer is dereferenced, [time.NewTicker] rejects its period),
    or is still looping when the fuel given to its loop is used up. *)
Record State := mkState { self : Buffer; trace : list Event }.

Inductive Outcome (A : Type) : Type :=
| Done (a : A) (s : State)
| Panic (reason : string) (s : State)
| Looping (s : State).
Arguments Done {A} a s.
Arguments Panic {A} reason s.
Arguments Looping {A} s.

Definition M (A : Type) : Type := State -> Outcome A.

Definition ret {A} (a : A) : M A := fun s => Done a s.

Definition bind {A B} (m : M A) (k : A -> M B) : M B :=
  fun s =>
    match m s with
    | Done a s' => k a s'
    | Panic r s' => Panic r s'
    | Looping s' => Looping s'
    end.

Notation "x <- m ;; k" := (bind m (fun x => k))
  (at level 100, m at next level, right associativity).

Definition panic {A} (reason : string) : M A := fun s => Panic reason s.
Definition looping {A} : M A := fun s => Looping s.

Definition gets {A} (f : Buffer -> A) : M A := fun s => Done (f (self s)) s.

Definition modify (f : Buffer -> Buffer) : M unit :=
  fun s => Done tt (mkState (f (self s)) (trace s)).

Definition emit (e : Event) : M unit :=
  fun s => Done tt (mkState (self s) (trace s ++ [e])).

(** [if err := m; err != nil { return err }] followed by [k]. *)
Definition or_return (m : M (option Error)) (k : M (option Error))
  : M (option Error) :=
  r <- m ;;
  match r with
  | Some err => ret (Some err)
  | None => k
  end.

(** [m1 && m2], the right operand evaluated only when the left is true. *)
Definition andM (m1 m2 : M bool) : M bool :=
  b <- m1 ;; if b then m2 else ret false.

(** *** Calls through the pointer fields *)

(** The pipeline a field points to.  A method called through a nil field
    runs with a nil receiver, and what it does then is decided by its body
    in package [gst], which is not among the sources: the [None] branch
    takes the method to read its receiver, where the Go runtime panics.
    The properties of the Buffer are stated for fields that are set. *)
Definition deref (sl : Slot) : M gst.Pipeline :=
  p <- gets (field sl) ;;
  match p with
  | Some p => ret p
  | None => panic "runtime error: invalid memory address or nil pointer dereference"
  end.

Definition pipelineStart (env : Env) (sl : Slot) : M (option Error) :=
  p <- deref sl ;;
  _ <- emit (GstStart sl) ;;
  let '(err, p') := gst.Start (gst_spawn env) p in
  _ <- modify (assign sl (Some p')) ;;
  ret err.

Definition pipelineIsClosed (sl : Slot) : M bool :=
  p <- deref sl ;;
  ret (gst.IsClosed p).

Definition pipelineClose (env : Env) (sl : Slot) : M (option Error) :=
  p <- deref sl ;;
  _ <- emit (GstClose sl) ;;
  let '(err, p') := gst.Close (gst_kill env) p in
  _ <- modify (assign sl (Some p')) ;;
  ret err.

Definition pipelineWait (env : Env) (sl : Slot) : M (option Error) :=
  p <- deref sl ;;
  _ <- emit (GstWait sl) ;;
  ret (gst.Wait (gst_exit env) p).

Definition pipelinePid (env : Env) (sl : Slot) : M Z :=
  p <- deref sl ;;
  ret (gst_pid env p).

(** Modelled from the spec: the DeviceManager calls; "fails with a
    provisioning error if the underlying device subsystem rejects
    creation". *)
Definition AddSink (env : Env) (name descr : string) : M (option Error) :=
  _ <- emit (PaAddSink name descr) ;;
  match pa_AddSink env name descr with
  | Some err => ret (Some err)
  | None =>
      d <- gets deviceManager ;;
      _ <- modify (with_deviceManager (pa.provision name d)) ;;
      ret None
  end.

Definition AddSource (env : Env) (name descr fifo format : string)
    (ch rate : Z) : M (option Error) :=
  _ <- emit (PaAddSource name descr fifo format ch rate) ;;
  match pa_AddSource env name descr fifo format ch rate with
  | Some err => ret (Some err)
  | None =>
      d <- gets deviceManager ;;
      _ <- modify (with_deviceManager (pa.provision name d)) ;;
      ret None
  end.

Definition SetDefaultSource (env : Env) (name : string) : M (option Error) :=
  _ <- emit (PaSetDefaultSource name) ;;
  match pa_SetDefaultSource env name with
  | Some err => ret (Some err)
  | None =>
      d <- gets deviceManager ;;
      _ <- modify (with_deviceManager (pa.designate name d)) ;;
      ret None
  end.

Definition Destroy : M unit :=
  _ <- emit PaDestroy ;;
  d <- gets deviceManager ;;
  modify (with_deviceManager (pa.Destroy d)).

(** *** The methods of buffer.go *)

Definition buildPlaybackPipeline (codec : Codec) : M gst.Pipeline :=
  u <- gets userID ;;
  l <- gets logger ;;
  ch <- gets channels ;;
  sr <- gets sampleRate ;;
  let pipeline :=
    gst.WithPulseSrc u "kvdi.monitor" ch sr
      (gst.NewPipeline u (WithName l "gst_playback")) in
  pipeline <-
    (if String.eqb codec CodecVorbis then
       ret (gst.WithOggMux (gst.WithVorbisEncode pipeline))
     else if String.eqb codec CodecOpus then
       ret (gst.WithWebmMux (gst.WithOpusEncode (gst.WithCutter pipeline)))
     else if String.eqb codec CodecMP3 then
       ret (gst.WithLameEncode pipeline)
     else
       _ <- emit (LogInfo l ("Invalid codec for gst pipeline " +:+ codec
                             +:+ ", defaulting to opus/webm")) ;;
       ret (gst.WithWebmMux (gst.WithOpusEncode (gst.WithCutter pipeline)))) ;;
  ret (gst.WithFdSink 1 pipeline).

Definition buildRecordingPipelines (codec : Codec)
  : M (gst.Pipeline * gst.Pipeline) :=
  u <- gets userID ;;
  l <- gets logger ;;
  let bufPipeline :=
    gst.WithFileSink "/mnt/home/test.raw" true
      (gst.WithOpusDecode true
         (gst.WithPlugin "rtpopusdepay"
            (gst.WithPlugin "rtpjitterbuffer latency=20 do-lost=True"
               (gst.WithCaps "application/x-rtp" []
                  (gst.WithTCPSrc "127.0.0.1" 9004 true
                     (gst.NewPipeline u (WithName l "gst_buffer"))))))) in
  let recPipeline :=
    gst.WithPlugin "tcpclientsink host=127.0.0.1 port=9004"
      (gst.WithPlugin "rtpopuspay"
         (gst.WithOggDemux
            (gst.WithFdSrc 0
               (gst.NewPipeline u (WithName l "gst_recorder"))))) in
  ret (bufPipeline, recPipeline).

Definition setupDevices (env : Env) : M (option Error) :=
  or_return (AddSink env "kvdi" "kvdi-playback")
    (or_return
       (u <- gets userID ;;
        AddSource env "virtmic" "kvdi-microphone"
          ("/run/user/" +:+ u +:+ "/pulse/mic.fifo") "s16le" 1 16000)
       (SetDefaultSource env "virtmic")).

Definition SetChannels (c : Z) : M unit :=
  modify (fun b =>
    {| logger := logger b; deviceManager := deviceManager b;
       pbkPipeline := pbkPipeline b; bufPipeline := bufPipeline b;
       recPipeline := recPipeline b; channels := c;
       sampleRate := sampleRate b; userID := userID b;
       nullSinkID := nullSinkID b; inputDeviceID := inputDeviceID b;
       closed := closed b |}).

Definition SetSampleRate (r : Z) : M unit :=
  modify (fun b =>
    {| logger := logger b; deviceManager := deviceManager b;
       pbkPipeline := pbkPipeline b; bufPipeline := bufPipeline b;
       recPipeline := recPipeline b; channels := channels b;
       sampleRate := r; userID := userID b;
       nullSinkID := nullSinkID b; inputDeviceID := inputDeviceID b;
       closed := closed b |}).

(** The body of [for range ticker.C] in [waitForProcPort], entered at the
    k-th tick.  [tries] is the local variable of that name: the loop body
    compares it with [retries] and has no assignment to it, so every
    iteration hands it on as it received it.  [fuel] bounds the number of
    ticks that are run. *)
Fixpoint pollTicks (env : Env) (proto : string) (pid port retries : Z)
    (period : Z) (portHex : string) (fuel : nat) (k : nat) (tries : Z)
  : M (option Error) :=
  match fuel with
  | O => looping
  | S fuel' =>
      _ <- emit (Tick period) ;;
      let path := "/proc/" +:+ gostd.FormatInt10 pid +:+ "/net/" +:+ proto in
      _ <- emit (ProcOpen path) ;;
      match proc_read env path k with
      | OpenFails err => ret (Some err)
      | ReadFails err => ret (Some err)
      | CloseFails err => ret (Some err)
      | Contents body =>
          if gostd.Contains body portHex then ret None
          else if Z.eqb tries retries then
            ret (Some (errors_New
              ("Hit retry limit waiting for port " +:+ proto +:+ "/"
               +:+ gostd.FormatInt10 port +:+ " on PID "
               +:+ gostd.FormatInt10 pid)))
          else pollTicks env proto pid port retries period portHex fuel' (S k) tries
      end
  end.

(** [time.NewTicker] panics on a period that is not positive. *)
Definition waitForProcPort (env : Env) (fuel : nat) (proto : string)
    (pid port retries interval : Z) : M (option Error) :=
  let portHex := gostd.ToUpper (gostd.FormatInt16 port) in
  let tries := 0 in
  let period := gostd.wrap64 (gostd.Second * interval) in
  if Z.leb period 0 then panic "non-positive interval for NewTicker"
  else pollTicks env proto pid port retries period portHex fuel O tries.

(** The function literal that [Start] runs as a goroutine. *)
Definition Start_func1 (env : Env) (fuel : nat) : M unit :=
  pid <- pipelinePid env Buf ;;
  err <- waitForProcPort env fuel "tcp" pid 9004 5 1 ;;
  match err with
  | Some err =>
      l <- gets logger ;;
      emit (LogError l err "Buffer port did not become available")
  | None =>
      err <- pipelineStart env Rec ;;
      match err with
      | Some err =>
          l <- gets logger ;;
          emit (LogError l err "Failed to start recorder pipeline.")
      | None => ret tt
      end
  end.

(** [Start]: the [go] statement is recorded as the event [Go]; what the
    goroutine does afterwards is [Start_func1]. *)
Definition Start (env : Env) (codec : Codec) : M (option Error) :=
  or_return (setupDevices env)
    (pbk <- buildPlaybackPipeline codec ;;
     _ <- modify (assign Pbk (Some pbk)) ;;
     bufrec <- buildRecordingPipelines codec ;;
     _ <- modify (assign Buf (Some (fst bufrec))) ;;
     _ <- modify (assign Rec (Some (snd bufrec))) ;;
     or_return (pipelineStart env Pbk)
       (or_return (pipelineStart env Buf)
          (_ <- emit Go ;;
           ret None))).

Definition Wait (env : Env) : M (option Error) :=
  let errs : list string := [] in
  r <- pipelineWait env Pbk ;;
  let errs := match r with Some err => errs ++ [Error_msg err] | None => errs end in
  r <- pipelineWait env Buf ;;
  let errs := match r with Some err => errs ++ [Error_msg err] | None => errs end in
  r <- pipelineWait env Rec ;;
  let errs := match r with Some err => errs ++ [Error_msg err] | None => errs end in
  if Nat.ltb 0 (length errs) then ret (Some (errors_New (gostd.Join errs " : ")))
  else ret None.

Definition IsClosed : M bool :=
  andM (andM (andM (pipelineIsClosed Pbk) (pipelineIsClosed Rec))
             (pipelineIsClosed Buf))
       (gets closed).

Definition Close (env : Env) : M (option Error) :=
  c <- IsClosed ;;
  if negb c then
    or_return (pipelineClose env Pbk)
      (or_return (pipelineClose env Buf)
         (or_return (pipelineClose env Rec)
            (_ <- Destroy ;;
             _ <- modify (with_closed true) ;;
             ret None)))
  else ret None.

End audio.

(** ** Package k8sutil: the creation-spec annotation *)

Module k8sutil.

(** [fmt.Sprintf("%x", b)] on a byte slice: two lower-case hexadecimal
    digits per byte. *)
Definition hexdigit (n : N) : ascii :=
  match String.get (N.to_nat n) "0123456789abcdef" with
  | Some c => c
  | None => "0"%char
  end.

Fixpoint Sprintf_x (b : list Byte.byte) : string :=
  match b with
  | [] => ""
  | x :: rest =>
      let n := Byte.to_N x in
      String (hexdigit (N.div n 16)) (String (hexdigit (N.modulo n 16)) (Sprintf_x rest))
  end.

(** [metav1.ObjectMeta], with the fields this package reads or writes and
    three of those it leaves alone.  A Go map may be nil. *)
Record ObjectMeta := mkObjectMeta {
  Name : string;
  Namespace : string;
  Labels : option (gmap string string);
  Annotations : option (gmap string string)
}.

Definition GetAnnotations (meta : ObjectMeta) : option (gmap string string) :=
  Annotations meta.

Definition SetAnnotations (a : gmap string string) (meta : ObjectMeta)
  : ObjectMeta :=
  mkObjectMeta (Name meta) (Namespace meta) (Labels meta) (Some a).

(** [v, ok := m[k]]: reading a nil map finds nothing. *)
Definition index (m : option (gmap string string)) (k : string)
  : option string :=
  match m with
  | None => None
  | Some m => m !! k
  end.

(** [hash.Hash.Write]: "It never returns an error." *)
Definition hash_Write (data : list Byte.byte) : option Error := None.

Section helpers.

(** [runtime.Object], [json.Marshal] and [sha256] belong to other
    libraries; the annotation key [v1.CreationSpecAnnotation] is a
    constant of a package that is not among the sources. *)
Variable Object : Type.
Variable json_Marshal : Object -> list Byte.byte + Error.
Variable sha256_Sum : list Byte.byte -> list Byte.byte.
Variable CreationSpecAnnotation : string.

(** The body of the function on the metadata [meta] points to and on the
    object as it is when the call is made: the error, and the metadata as
    the call leaves it.  Where [meta] points, possibly into [obj] itself,
    is the matter of [k8sutil_heap.SetCreationSpecAnnotation]. *)
Definition SetCreationSpecAnnotation (meta : ObjectMeta) (obj : Object)
  : option Error * ObjectMeta :=
  let annotations := GetAnnotations meta in
  let annotations :=
    match annotations with
    | None => (∅ : gmap string string)
    | Some a => a
    end in
  match json_Marshal obj with
  | inr err => (Some err, meta)
  | inl spec =>
      match hash_Write spec with
      | Some err => (Some err, meta)
      | None =>
          let annotations :=
            <[CreationSpecAnnotation := Sprintf_x (sha256_Sum spec)]> annotations in
          (None, SetAnnotations annotations meta)
      end
  end.

Definition CreationSpecsEqual (m1 m2 : ObjectMeta) : bool :=
  let m1ann := GetAnnotations m1 in
  let m2ann := GetAnnotations m2 in
  match index m1ann CreationSpecAnnotation with
  | None => false
  | Some spec1 =>
      match index m2ann CreationSpecAnnotation with
      | None => false
      | Some spec2 => String.eqb spec1 spec2
      end
  end.

End helpers.

Arguments SetCreationSpecAnnotation {Object} json_Marshal sha256_Sum
  CreationSpecAnnotation meta obj.

End k8sutil.

(** ** Sample worlds and Buffers, used to run the code on concrete inputs *)

Module samples.
Import audio.

(** Every device and process call succeeds; the /proc file is read
    without error and never lists the port. *)
Definition quiet : Env :=
  {| pa_AddSink := fun _ _ => None;
     pa_AddSource := fun _ _ _ _ _ _ => None;
     pa_SetDefaultSource := fun _ => None;
     gst_spawn := fun _ => None;
     gst_kill := fun _ => None;
     gst_exit := fun _ => None;
     gst_pid := fun _ => 4242;
     proc_read := fun _ _ => Contents "" |}.

(** As [quiet], but terminating a process fails for the pipelines whose
    logger name is listed in [names]. *)
Definition kill_fails (names : list string) : Env :=
  {| pa_AddSink := fun _ _ => None;
     pa_AddSource := fun _ _ _ _ _ _ => None;
     pa_SetDefaultSource := fun _ => None;
     gst_spawn := fun _ => None;
     gst_kill := fun p =>
       match last (log_names (gst.logger p)) with
       | Some n => if bool_decide (n ∈ names)
                   then Some (errors_New ("kill " +:+ n)) else None
       | None => None
       end;
     gst_exit := fun _ => None;
     gst_pid := fun _ => 4242;
     proc_read := fun _ _ => Contents "" |}.

(** As [quiet], but the processes of the listed pipelines exit with an
    error. *)
Definition exit_fails (names : list string) : Env :=
  {| pa_AddSink := fun _ _ => None;
     pa_AddSource := fun _ _ _ _ _ _ => None;
     pa_SetDefaultSource := fun _ => None;
     gst_spawn := fun _ => None;
     gst_kill := fun _ => None;
     gst_exit := fun p =>
       match last (log_names (gst.logger p)) with
       | Some n => if bool_decide (n ∈ names)
                   then Some (errors_New ("exit " +:+ n)) else None
       | None => None
       end;
     gst_pid := fun _ => 4242;
     proc_read := fun _ _ => Contents "" |}.

(** As [quiet], but the PulseAudio call named by [step] is rejected. *)
Definition pa_fails (step : nat) : Env :=
  {| pa_AddSink := fun _ _ =>
       if Nat.eqb step 1 then Some (errors_New "load-module failed") else None;
     pa_AddSource := fun _ _ _ _ _ _ =>
       if Nat.eqb step 2 then Some (errors_New "mkfifo failed") else None;
     pa_SetDefaultSource := fun _ =>
       if Nat.eqb step 3 then Some (errors_New "no such source") else None;
     gst_spawn := fun _ => None;
     gst_kill := fun _ => None;
     gst_exit := fun _ => None;
     gst_pid := fun _ => 4242;
     proc_read := fun _ _ => Contents "" |}.

(** A Buffer as [NewBuffer] returns it, before any event. *)
Definition fresh : State := mkState (NewBuffer (mkLogger []) "1000") [].

(** The state a computation ends in, [fresh] when it does not return. *)
Definition state_after {A} (o : Outcome A) : State :=
  match o with
  | Done _ s => s
  | Panic _ s => s
  | Looping s => s
  end.

(** [fresh] after [Start(CodecOpus)] in the world [env]. *)
Definition started (env : Env) : State :=
  state_after (Start env CodecOpus fresh).

(** The pipeline held in a field, a new one when the field is nil. *)
Definition pipeline (sl : Slot) (s : State) : gst.Pipeline :=
  match field sl (self s) with
  | Some p => p
  | None => gst.NewPipeline "" (mkLogger [])
  end.

(** [started quiet] after a [Close] in which every process is
    terminated without error. *)
Definition shut : State := state_after (Close quiet (started quiet)).

End samples.

(** ** Package audio: the diagnostic methods of the Buffer *)

Module audio_diag.
Import audio.

(** [Pipeline.Error] and [Pipeline.Stderr] belong to package [gst]; what
    they return for a pipeline is read from [perr] and [pstderr].  Like the
    other methods they are called through the pointer field. *)
Definition pipelineError (perr : gst.Pipeline -> option Error) (sl : Slot)
  : M (option Error) :=
  p <- deref sl ;;
  ret (perr p).

Definition pipelineStderr (pstderr : gst.Pipeline -> string) (sl : Slot)
  : M string :=
  p <- deref sl ;;
  ret (pstderr p).

(** [Errors]: a nil slice ([None]) when no pipeline has an error. *)
Definition Errors (perr : gst.Pipeline -> option Error) : M (option (list Error)) :=
  let errs : list Error := [] in
  r <- pipelineError perr Pbk ;;
  let errs := match r with Some err => errs ++ [err] | None => errs end in
  r <- pipelineError perr Buf ;;
  let errs := match r with Some err => errs ++ [err] | None => errs end in
  r <- pipelineError perr Rec ;;
  let errs := match r with Some err => errs ++ [err] | None => errs end in
  if Nat.ltb 0 (length errs) then ret (Some errs) else ret None.

Definition Stderr (pstderr : gst.Pipeline -> string) : M string :=
  e1 <- pipelineStderr pstderr Pbk ;;
  e2 <- pipelineStderr pstderr Buf ;;
  e3 <- pipelineStderr pstderr Rec ;;
  ret (gostd.Join [e1; e2; e3] " : ").

End audio_diag.

(** ** Package k8sutil: the identity of the running pod *)

Module k8sutil_pod.

(** The process environment; [os.Getenv] gives the empty string for a
    variable that is not set. *)
Definition Getenv (environ : gmap string string) (name : string) : string :=
  default "" (environ !! name).

Definition GetThisPodName (environ : gmap string string) : string * option Error :=
  let podName := Getenv environ "POD_NAME" in
  if negb (String.eqb podName "") then (podName, None)
  else ("", Some (errors_New "No POD_NAME in the environment")).

Definition GetThisPodNamespace (environ : gmap string string)
  : string * option Error :=
  let podNS := Getenv environ "POD_NAMESPACE" in
  if negb (String.eqb podNS "") then (podNS, None)
  else ("", Some (errors_New "No POD_NAMESPACE in the environment")).

(** [types.NamespacedName]. *)
Record NamespacedName := mkNamespacedName { nnName : string; nnNamespace : string }.

Section client.

(** [corev1.Pod] and its zero value; [client.Client.Get] fills the object
    it is handed and returns an error or nil. *)
Variable Pod : Type.
Variable zeroPod : Pod.

Definition Client := NamespacedName -> Pod -> Pod * option Error.

(** The [*corev1.Pod] result is nil ([None]) on the two early returns. *)
Definition GetThisPod (environ : gmap string string) (c : Client)
  : option Pod * option Error :=
  match GetThisPodName environ with
  | (_, Some err) => (None, Some err)
  | (podName, None) =>
      match GetThisPodNamespace environ with
      | (_, Some err) => (None, Some err)
      | (podNamespace, None) =>
          let nn := mkNamespacedName podName podNamespace in
          let pod := zeroPod in
          let '(pod, err) := c nn pod in
          (Some pod, err)
      end
  end.

End client.

Arguments Client Pod : clear implicits.
Arguments GetThisPod {Pod} zeroPod environ c.

End k8sutil_pod.

(** ** Package k8sutil: the annotation set through the pointer *)

Module k8sutil_heap.

Section heap.

(** A Kubernetes object as [runtime.Object] holds it: its own metadata
    and the rest of its fields. *)
Variable Rest : Type.

Record Object := mkObject { ownMeta : k8sutil.ObjectMeta; rest : Rest }.

Variable json_Marshal : Object -> list Byte.byte + Error.
Variable sha256_Sum : list Byte.byte -> list Byte.byte.
Variable CreationSpecAnnotation : string.

(** Where a [*metav1.ObjectMeta] points: at the metadata of the object
    itself ([&obj.ObjectMeta]), or at a metadata value that shares nothing
    with the object, neither the struct nor the annotation map. *)
Inductive MetaPtr : Type :=
| OwnMeta
| Detached (i : nat).

Global Instance MetaPtr_eq_dec : EqDecision MetaPtr.
Proof. solve_decision. Defined.

(** The object and the metadata values apart from it. *)
Record Heap := mkHeap { object : Object; metas : list k8sutil.ObjectMeta }.

Definition load (p : MetaPtr) (h : Heap) : option k8sutil.ObjectMeta :=
  match p with
  | OwnMeta => Some (ownMeta (object h))
  | Detached i => metas h !! i
  end.

Definition store (p : MetaPtr) (m : k8sutil.ObjectMeta) (h : Heap) : Heap :=
  match p with
  | OwnMeta => mkHeap (mkObject m (rest (object h))) (metas h)
  | Detached i => mkHeap (object h) (<[i := m]> (metas h))
  end.

(** The call [SetCreationSpecAnnotation(meta, obj)] where [meta] is the
    pointer [p] and [obj] is the object of the heap: the object is
    marshalled as it is when the call is made, and the metadata is written
    where [p] points, which changes the object when [p] is [OwnMeta].  On
    an error nothing is written.  [None] for a [p] that points nowhere. *)
Definition SetCreationSpecAnnotation (p : MetaPtr) (h : Heap)
  : option (option Error * Heap) :=
  match load p h with
  | None => None
  | Some meta =>
      match k8sutil.SetCreationSpecAnnotation json_Marshal sha256_Sum
              CreationSpecAnnotation meta (object h) with
      | (Some err, _) => Some (Some err, h)
      | (None, meta') => Some (None, store p meta' h)
      end
  end.

End heap.

Arguments mkObject {Rest} ownMeta rest.
Arguments ownMeta {Rest} o.
Arguments rest {Rest} o.
Arguments mkHeap {Rest} object metas.
Arguments object {Rest} h.
Arguments metas {Rest} h.
Arguments load {Rest} p h.
Arguments store {Rest} p m h.
Arguments SetCreationSpecAnnotation {Rest} json_Marshal sha256_Sum
  CreationSpecAnnotation p h.

End k8sutil_heap.

(** ** Package api: the session-status websocket *)

Module api.

(** [v1alpha1.Desktop], with the two status fields the handler reads. *)
Record Desktop := mkDesktop { Status_Running : bool; Status_PodPhase : string }.

Record desktopStatus := mkDesktopStatus { Running : bool; PodPhase : string }.

(** [corev1.PodRunning]. *)
Definition PodRunning : string := "Running".

Definition toReturnStatus (desktop : Desktop) : desktopStatus :=
  {| Running := Status_Running desktop; PodPhase := Status_PodPhase desktop |}.

(** What is written to the connection: the JSON document of an API error
    ([errors.ToAPIError(err).JSON()]) or of a status ([st.JSON()]),
    identified by the value it encodes. *)
Inductive Payload : Type :=
| ErrorJSON (err : Error)
| StatusJSON (st : desktopStatus).

(** What the handler does, in order.  A write is recorded with its
    outcome. *)
Inductive WsEvent : Type :=
| WsTick (period : Z)
| WsWrite (payload : Payload) (ok : bool)
| WsLog (err : Error) (msg : string)
| WsClose.

Record WsEnv := mkWsEnv {
  (** [d.getDesktopForRequest(conn.Request())] at the k-th tick: the object
      that was handed to the client, and the client's error *)
  ws_get : nat -> Desktop * option Error;
  (** [apierrors.IsNotFound] *)
  ws_not_found : Error -> bool;
  (** [conn.Write]: the outcome of the n-th write on the connection *)
  ws_write : nat -> Payload -> option Error
}.

Inductive WsOutcome : Type :=
| WsReturned (trace : list WsEvent)
| WsLooping (trace : list WsEvent).

(** The statements of the loop body that follow the error branch, at the
    k-th tick, when [n] writes have been made. *)
Definition wsStatus (env : WsEnv) (desktop : Desktop) (n : nat)
    (trace : list WsEvent) (continue : nat -> list WsEvent -> WsOutcome)
  : WsOutcome :=
  let st := toReturnStatus desktop in
  match ws_write env n (StatusJSON st) with
  | Some err =>
      WsReturned (trace ++ [WsWrite (StatusJSON st) false;
                            WsLog err "Failed to write status to websocket connection"])
  | None =>
      let trace := trace ++ [WsWrite (StatusJSON st) true] in
      if (Running st && String.eqb (PodPhase st) PodRunning)%bool
      then WsReturned trace
      else continue (S n) trace
  end.

(** The body of [for range ticker.C], entered at the k-th tick. *)
Fixpoint wsTicks (env : WsEnv) (period : Z) (fuel : nat) (k n : nat)
    (trace : list WsEvent) : WsOutcome :=
  match fuel with
  | O => WsLooping trace
  | S fuel' =>
      let trace := trace ++ [WsTick period] in
      let continue := wsTicks env period fuel' (S k) in
      let '(desktop, err) := ws_get env k in
      match err with
      | Some err =>
          match ws_write env n (ErrorJSON err) with
          | Some werr =>
              WsReturned (trace ++ [WsWrite (ErrorJSON err) false;
                                    WsLog werr "Failed to write error to websocket connection"])
          | None =>
              let trace := trace ++ [WsWrite (ErrorJSON err) true] in
              if ws_not_found env err then WsReturned trace
              else wsStatus env desktop (S n) trace continue
          end
      | None => wsStatus env desktop n trace continue
      end
  end.

(** [defer conn.Close()] runs when the handler returns. *)
Definition GetDesktopSessionStatusWebsocket (env : WsEnv) (fuel : nat)
  : WsOutcome :=
  let period := 2 * gostd.Second in
  match wsTicks env period fuel 0 0 [] with
  | WsReturned trace => WsReturned (trace ++ [WsClose])
  | WsLooping trace => WsLooping trace
  end.

(** The events of an outcome. *)
Definition ws_trace (o : WsOutcome) : list WsEvent :=
  match o with
  | WsReturned trace => trace
  | WsLooping trace => trace
  end.

End api.

(** ** Further sample worlds *)

Module scenarios.
Import audio.

(** A world in which starting and terminating fail for the pipelines
    whose logger name is listed, and /proc is read as [proc] says. *)
Definition world (spawn_fail kill_fail : list string) (proc : nat -> ProcRead)
  : Env :=
  let named (what : string) (names : list string) (p : gst.Pipeline) :=
    match last (log_names (gst.logger p)) with
    | Some n => if bool_decide (n ∈ names)
                then Some (errors_New (what +:+ " " +:+ n)) else None
    | None => None
    end in
  {| pa_AddSink := fun _ _ => None;
     pa_AddSource := fun _ _ _ _ _ _ => None;
     pa_SetDefaultSource := fun _ => None;
     gst_spawn := named "spawn" spawn_fail;
     gst_kill := named "kill" kill_fail;
     gst_exit := fun _ => None;
     gst_pid := fun _ => 4242;
     proc_read := fun _ => proc |}.

(** /proc/4242/net/tcp lists the listening socket 127.0.0.1:9004 from the
    third read on. *)
Definition port_at_third (k : nat) : ProcRead :=
  if Nat.ltb k 2 then Contents "  sl  local_address rem_address   st"
  else Contents "   0: 0100007F:232C 00000000:0000 0A".

(** The third read fails: the process is gone. *)
Definition gone_at_third (k : nat) : ProcRead :=
  if Nat.ltb k 2 then Contents ""
  else OpenFails (errors_New "open /proc/4242/net/tcp: no such file or directory").

(** A desktop that is reported running at the third poll; every write
    succeeds. *)
Definition ws_boots : api.WsEnv :=
  {| api.ws_get := fun k =>
       if Nat.ltb k 2 then (api.mkDesktop false "Pending", None)
       else (api.mkDesktop true "Running", None);
     api.ws_not_found := fun _ => false;
     api.ws_write := fun _ _ => None |}.

(** The desktop is not found at the second poll. *)
Definition ws_deleted : api.WsEnv :=
  {| api.ws_get := fun k =>
       if Nat.ltb k 1 then (api.mkDesktop false "Pending", None)
       else (api.mkDesktop false "", Some (errors_New "desktops dev not found"));
     api.ws_not_found := fun _ => true;
     api.ws_write := fun _ _ => None |}.

(** The first poll fails with an error other than not-found. *)
Definition ws_flaky : api.WsEnv :=
  {| api.ws_get := fun k =>
       if Nat.eqb k 0 then (api.mkDesktop false "", Some (errors_New "etcd timeout"))
       else (api.mkDesktop false "Pending", None);
     api.ws_not_found := fun _ => false;
     api.ws_write := fun _ _ => None |}.

(** The connection breaks at the second write. *)
Definition ws_broken : api.WsEnv :=
  {| api.ws_get := fun _ => (api.mkDesktop false "Pending", None);
     api.ws_not_found := fun _ => false;
     api.ws_write := fun n _ =>
       if Nat.eqb n 1 then Some (errors_New "broken pipe") else None |}.

(** The value a computation returns, [d] when it does not return. *)
Definition result {A} (o : Outcome A) (d : A) : A :=
  match o with
  | Done a _ => a
  | _ => d
  end.

(** The pipelines that [Start(CodecOpus)] builds on [samples.fresh]. *)
Definition built_pbk : gst.Pipeline :=
  result (buildPlaybackPipeline CodecOpus samples.fresh)
         (gst.NewPipeline "" (mkLogger [])).

Definition built_buf : gst.Pipeline :=
  fst (result (buildRecordingPipelines CodecOpus samples.fresh)
              (gst.NewPipeline "" (mkLogger []), gst.NewPipeline "" (mkLogger []))).

Definition built_rec : gst.Pipeline :=
  snd (result (buildRecordingPipelines CodecOpus samples.fresh)
              (gst.NewPipeline "" (mkLogger []), gst.NewPipeline "" (mkLogger []))).

(** A desktop object that carries no annotation yet, and one metadata
    value apart from it.  [render] stands for [json.Marshal]: like JSON it
    shows the annotation the object carries next to the rest of it.
    [digest] stands for sha256: no two inputs share a digest. *)
Definition spec_key : string := "kvdi.io/creation-spec".

Definition render (o : k8sutil_heap.Object string) : list Byte.byte + Error :=
  inl (String.list_byte_of_string
         (k8sutil_heap.rest o +:+ "|" +:+
          default "" (k8sutil.index
                        (k8sutil.GetAnnotations (k8sutil_heap.ownMeta o)) spec_key))).

Definition digest (b : list Byte.byte) : list Byte.byte := b.

Definition desktop : k8sutil_heap.Heap string :=
  k8sutil_heap.mkHeap
    (k8sutil_heap.mkObject (k8sutil.mkObjectMeta "desktop" "default" None None) "spec")
    [k8sutil.mkObjectMeta "found" "default" None None].

End scenarios.

(** ** Properties of the Buffer *)

Section buffer_properties.
Import audio.

Implicit Types (s : State) (env : Env) (sl : Slot) (p : gst.Pipeline).

(** Unfolds one layer of the monad. *)
Ltac step :=
  unfold or_return, andM, bind, ret, gets, modify, emit, panic, looping; simpl.

Lemma bind_Done {A B} (m : M A) (k : A -> M B) s a s' :
  m s = Done a s' -> bind m k s = k a s'.
Proof. intros H. unfold bind. rewrite H. reflexivity. Qed.

Lemma or_return_err (m k : M (option Error)) s e s' :
  m s = Done (Some e) s' -> or_return m k s = Done (Some e) s'.
Proof. intros H. unfold or_return. rewrite (bind_Done _ _ _ _ _ H). reflexivity. Qed.

Lemma or_return_ok (m k : M (option Error)) s s' :
  m s = Done None s' -> or_return m k s = k s'.
Proof. intros H. unfold or_return. rewrite (bind_Done _ _ _ _ _ H). reflexivity. Qed.

Lemma deref_Some s sl p :
  field sl (self s) = Some p -> deref sl s = Done p s.
Proof. intros H. unfold deref. step. rewrite H. reflexivity. Qed.

Lemma deref_None s sl :
  field sl (self s) = None ->
  deref sl s =
    Panic "runtime error: invalid memory address or nil pointer dereference" s.
Proof. intros H. unfold deref. step. rewrite H. reflexivity. Qed.

Lemma pipelineIsClosed_Some s sl p :
  field sl (self s) = Some p -> pipelineIsClosed sl s = Done (gst.IsClosed p) s.
Proof.
  intros H. unfold pipelineIsClosed, bind. rewrite (deref_Some _ _ _ H).
  reflexivity.
Qed.

Lemma pipelineClose_Some env s sl p :
  field sl (self s) = Some p ->
  pipelineClose env sl s =
    Done (fst (gst.Close (gst_kill env) p))
         (mkState (assign sl (Some (snd (gst.Close (gst_kill env) p))) (self s))
                  (trace s ++ [GstClose sl])).
Proof.
  intros H. unfold pipelineClose, bind at 1. rewrite (deref_Some _ _ _ H).
  step. destruct (gst.Close (gst_kill env) p); reflexivity.
Qed.

Lemma pipelineStart_Some env s sl p :
  field sl (self s) = Some p ->
  pipelineStart env sl s =
    Done (fst (gst.Start (gst_spawn env) p))
         (mkState (assign sl (Some (snd (gst.Start (gst_spawn env) p))) (self s))
                  (trace s ++ [GstStart sl])).
Proof.
  intros H. unfold pipelineStart, bind at 1. rewrite (deref_Some _ _ _ H).
  step. destruct (gst.Start (gst_spawn env) p); reflexivity.
Qed.

Lemma pipelineWait_Some env s sl p :
  field sl (self s) = Some p ->
  pipelineWait env sl s =
    Done (gst.Wait (gst_exit env) p) (mkState (self s) (trace s ++ [GstWait sl])).
Proof.
  intros H. unfold pipelineWait, bind at 1. rewrite (deref_Some _ _ _ H).
  reflexivity.
Qed.

(** A pipeline that [gst.Close] closed without error reports closed. *)
Lemma gst_Close_ok kill p :
  fst (gst.Close kill p) = None -> gst.IsClosed (snd (gst.Close kill p)) = true.
Proof.
  unfold gst.Close, gst.IsClosed.
  destruct (gst.closed p) eqn:Hc; simpl; [exact (fun _ => Hc)|].
  destruct (kill p); simpl; [discriminate | reflexivity].
Qed.

(** [IsClosed] on a Buffer whose three pipelines exist: the conjunction
    of the four flags, and no effect. *)
Lemma IsClosed_run s pbk buf rec :
  field Pbk (self s) = Some pbk ->
  field Buf (self s) = Some buf ->
  field Rec (self s) = Some rec ->
  IsClosed s =
    Done (gst.IsClosed pbk && gst.IsClosed rec && gst.IsClosed buf
          && closed (self s))%bool s.
Proof.
  intros Hp Hb Hr. unfold IsClosed, andM, bind.
  rewrite (pipelineIsClosed_Some _ _ _ Hp).
  destruct (gst.IsClosed pbk); simpl; [|reflexivity].
  rewrite (pipelineIsClosed_Some _ _ _ Hr).
  destruct (gst.IsClosed rec); simpl; [|reflexivity].
  rewrite (pipelineIsClosed_Some _ _ _ Hb).
  destruct (gst.IsClosed buf); simpl; reflexivity.
Qed.

(** C8.  On a started Buffer (its three pipelines exist) [IsClosed]
    returns, changes nothing, and its result is true exactly when the
    playback, recorder and network-buffer pipelines all report closed and
    the Buffer's own closed flag is set. *)
Theorem IsClosed_iff_all_four s pbk buf rec :
  field Pbk (self s) = Some pbk ->
  field Buf (self s) = Some buf ->
  field Rec (self s) = Some rec ->
  exists r : bool,
    IsClosed s = Done r s /\
    (r = true <->
     gst.IsClosed pbk = true /\ gst.IsClosed rec = true /\
     gst.IsClosed buf = true /\ closed (self s) = true).
Proof.
  intros Hp Hb Hr. eexists. split; [apply (IsClosed_run _ _ _ _ Hp Hb Hr)|].
  rewrite !andb_true_iff. tauto.
Qed.

(** [Close] on a Buffer whose three pipelines exist and that does not
    report closed: the three pipeline closes in the order of the code,
    each guarded by the one before. *)
Lemma Close_run env s pbk buf rec :
  field Pbk (self s) = Some pbk ->
  field Buf (self s) = Some buf ->
  field Rec (self s) = Some rec ->
  IsClosed s = Done false s ->
  let c1 := gst.Close (gst_kill env) pbk in
  let c2 := gst.Close (gst_kill env) buf in
  let c3 := gst.Close (gst_kill env) rec in
  let b1 := assign Pbk (Some (snd c1)) (self s) in
  let b2 := assign Buf (Some (snd c2)) b1 in
  let b3 := assign Rec (Some (snd c3)) b2 in
  Close env s =
    match fst c1 with
    | Some e => Done (Some e) (mkState b1 (trace s ++ [GstClose Pbk]))
    | None =>
        match fst c2 with
        | Some e =>
            Done (Some e) (mkState b2 (trace s ++ [GstClose Pbk; GstClose Buf]))
        | None =>
            match fst c3 with
            | Some e =>
                Done (Some e)
                  (mkState b3 (trace s ++ [GstClose Pbk; GstClose Buf; GstClose Rec]))
            | None =>
                Done None
                  (mkState
                     (with_closed true
                        (with_deviceManager (pa.Destroy (deviceManager b3)) b3))
                     (trace s ++ [GstClose Pbk; GstClose Buf; GstClose Rec; PaDestroy]))
            end
        end
    end.
Proof.
  intros Hp Hb Hr Hopen c1 c2 c3 b1 b2 b3.
  unfold Close. rewrite (bind_Done _ _ _ _ _ Hopen). change (negb false) with true. cbv iota.
  pose proof (pipelineClose_Some env s Pbk pbk Hp) as H1.
  fold c1 in H1. fold b1 in H1.
  destruct (fst c1) as [e1|]; [exact (or_return_err _ _ _ _ _ H1)|].
  rewrite (or_return_ok _ _ _ _ H1). clear H1.
  pose proof (pipelineClose_Some env (mkState b1 (trace s ++ [GstClose Pbk]))
                Buf buf Hb) as H2.
  fold c2 in H2. simpl self in H2. fold b2 in H2.
  simpl trace in H2. rewrite <- app_assoc in H2. simpl app in H2.
  destruct (fst c2) as [e2|]; [exact (or_return_err _ _ _ _ _ H2)|].
  rewrite (or_return_ok _ _ _ _ H2). clear H2.
  pose proof (pipelineClose_Some env
                (mkState b2 (trace s ++ [GstClose Pbk; GstClose Buf]))
                Rec rec Hr) as H3.
  fold c3 in H3. simpl self in H3. fold b3 in H3.
  simpl trace in H3. rewrite <- app_assoc in H3. simpl app in H3.
  destruct (fst c3) as [e3|]; [exact (or_return_err _ _ _ _ _ H3)|].
  rewrite (or_return_ok _ _ _ _ H3). clear H3.
  unfold Destroy. step. rewrite <- app_assoc. reflexivity.
Qed.

(** [Close] on a Buffer that reports closed does nothing. *)
Lemma Close_closed env s :
  IsClosed s = Done true s -> Close env s = Done None s.
Proof. intros H. unfold Close, bind. rewrite H. reflexivity. Qed.

(** C3.  On a started Buffer (its three pipelines exist) that does not
    already report closed, [Close] closes the playback pipeline, then the
    network-buffer pipeline, then the recorder pipeline.  The first close
    that fails ends the call: its error is returned, no later pipeline is
    closed, [Destroy] is not invoked and neither the closed flag nor the
    DeviceManager changes.  [Destroy] and [closed = true] are reached in
    the one case where the three closes succeed. *)
Theorem Close_sequence env s pbk buf rec :
  field Pbk (self s) = Some pbk ->
  field Buf (self s) = Some buf ->
  field Rec (self s) = Some rec ->
  IsClosed s = Done false s ->
  let k1 := fst (gst.Close (gst_kill env) pbk) in
  let k2 := fst (gst.Close (gst_kill env) buf) in
  let k3 := fst (gst.Close (gst_kill env) rec) in
  exists r s',
    Close env s = Done r s' /\
    ((exists e, k1 = Some e /\ r = Some e /\
        trace s' = trace s ++ [GstClose Pbk] /\
        closed (self s') = closed (self s) /\
        deviceManager (self s') = deviceManager (self s)) \/
     (exists e, k1 = None /\ k2 = Some e /\ r = Some e /\
        trace s' = trace s ++ [GstClose Pbk; GstClose Buf] /\
        closed (self s') = closed (self s) /\
        deviceManager (self s') = deviceManager (self s)) \/
     (exists e, k1 = None /\ k2 = None /\ k3 = Some e /\ r = Some e /\
        trace s' = trace s ++ [GstClose Pbk; GstClose Buf; GstClose Rec] /\
        closed (self s') = closed (self s) /\
        deviceManager (self s') = deviceManager (self s)) \/
     (k1 = None /\ k2 = None /\ k3 = None /\ r = None /\
        trace s' = trace s ++ [GstClose Pbk; GstClose Buf; GstClose Rec; PaDestroy] /\
        closed (self s') = true /\
        deviceManager (self s') = pa.Destroy (deviceManager (self s)))).
Proof.
  intros Hp Hb Hr Hopen k1 k2 k3.
  rewrite (Close_run env s pbk buf rec Hp Hb Hr Hopen).
  fold k1 k2 k3.
  destruct k1 as [e1|] eqn:E1.
  { do 2 eexists. split; [reflexivity|]. left. exists e1. auto. }
  destruct k2 as [e2|] eqn:E2.
  { do 2 eexists. split; [reflexivity|]. right. left. exists e2. auto 10. }
  destruct k3 as [e3|] eqn:E3.
  { do 2 eexists. split; [reflexivity|]. right. right. left. exists e3. auto 10. }
  do 2 eexists. split; [reflexivity|]. right. right. right. auto 10.
Qed.

(** C4.  On a Buffer on which [Close] has fully completed (the three
    pipelines report closed and the closed flag is set) a further [Close]
    returns no error and leaves the Buffer and the trace as they are: no
    pipeline is closed and [Destroy] is not invoked again. *)
Theorem Close_idempotent env s pbk buf rec :
  field Pbk (self s) = Some pbk ->
  field Buf (self s) = Some buf ->
  field Rec (self s) = Some rec ->
  gst.IsClosed pbk = true ->
  gst.IsClosed buf = true ->
  gst.IsClosed rec = true ->
  closed (self s) = true ->
  Close env s = Done None s.
Proof.
  intros Hp Hb Hr Cp Cb Cr Cs. apply Close_closed.
  rewrite (IsClosed_run s pbk buf rec Hp Hb Hr), Cp, Cb, Cr, Cs. reflexivity.
Qed.

(** A [Close] that returned no error leaves a Buffer that reports closed,
    whether it found it closed or closed it. *)
Lemma Close_ok_closed env s pbk buf rec s' :
  field Pbk (self s) = Some pbk ->
  field Buf (self s) = Some buf ->
  field Rec (self s) = Some rec ->
  Close env s = Done None s' ->
  IsClosed s' = Done true s'.
Proof.
  intros Hp Hb Hr HC.
  pose proof (IsClosed_run s pbk buf rec Hp Hb Hr) as HI.
  destruct (gst.IsClosed pbk && gst.IsClosed rec && gst.IsClosed buf
            && closed (self s))%bool eqn:E.
  - rewrite (Close_closed env s HI) in HC. inversion HC; subst. exact HI.
  - rewrite (Close_run env s pbk buf rec Hp Hb Hr HI) in HC.
    destruct (fst (gst.Close (gst_kill env) pbk)) eqn:E1; [discriminate|].
    destruct (fst (gst.Close (gst_kill env) buf)) eqn:E2; [discriminate|].
    destruct (fst (gst.Close (gst_kill env) rec)) eqn:E3; [discriminate|].
    inversion HC; subst; clear HC.
    erewrite IsClosed_run by (simpl; reflexivity). simpl.
    rewrite (gst_Close_ok _ _ E1), (gst_Close_ok _ _ E2), (gst_Close_ok _ _ E3).
    reflexivity.
Qed.

(** Calling [Close] again after a [Close] that returned no error: no
    error, no effect. *)
Lemma Close_twice env env' s pbk buf rec s' :
  field Pbk (self s) = Some pbk ->
  field Buf (self s) = Some buf ->
  field Rec (self s) = Some rec ->
  Close env s = Done None s' ->
  Close env' s' = Done None s'.
Proof.
  intros Hp Hb Hr HC. apply Close_closed.
  exact (Close_ok_closed env s pbk buf rec s' Hp Hb Hr HC).
Qed.


(** [setupDevices]: the three PulseAudio calls in order, each made only
    when the one before succeeded; the pipeline fields are not touched. *)
Lemma setupDevices_run env s :
  let fifo := "/run/user/" +:+ userID (self s) +:+ "/pulse/mic.fifo" in
  let ev1 := PaAddSink "kvdi" "kvdi-playback" in
  let ev2 := PaAddSource "virtmic" "kvdi-microphone" fifo "s16le" 1 16000 in
  let ev3 := PaSetDefaultSource "virtmic" in
  let d := deviceManager (self s) in
  let b1 := with_deviceManager (pa.provision "kvdi" d) (self s) in
  let b2 := with_deviceManager (pa.provision "virtmic" (pa.provision "kvdi" d)) b1 in
  let b3 := with_deviceManager
              (pa.designate "virtmic"
                 (pa.provision "virtmic" (pa.provision "kvdi" d))) b2 in
  setupDevices env s =
    match pa_AddSink env "kvdi" "kvdi-playback" with
    | Some e => Done (Some e) (mkState (self s) (trace s ++ [ev1]))
    | None =>
        match pa_AddSource env "virtmic" "kvdi-microphone" fifo "s16le" 1 16000 with
        | Some e => Done (Some e) (mkState b1 (trace s ++ [ev1; ev2]))
        | None =>
            match pa_SetDefaultSource env "virtmic" with
            | Some e => Done (Some e) (mkState b2 (trace s ++ [ev1; ev2; ev3]))
            | None => Done None (mkState b3 (trace s ++ [ev1; ev2; ev3]))
            end
        end
    end.
Proof.
  unfold setupDevices, AddSink, AddSource, SetDefaultSource. step.
  destruct (pa_AddSink env "kvdi" "kvdi-playback"); simpl; [reflexivity|].
  destruct (pa_AddSource env _ _ _ _ _ _); simpl;
    [rewrite <- app_assoc; reflexivity|].
  destruct (pa_SetDefaultSource env "virtmic"); simpl;
    rewrite <- !app_assoc; reflexivity.
Qed.

(** C2.  For every codec value [buildPlaybackPipeline] returns a pipeline
    (it has no error result) and leaves the Buffer as it was.  The stages
    are: the pulse source on the monitor of the sink, then vorbis-encode
    and ogg-mux for "vorbis", cutter, opus-encode and webm-mux for "opus",
    lame-encode alone for "mp3", and for every other value (the declared
    "raw" among them) cutter, opus-encode and webm-mux again with exactly
    one line logged; the last stage is always the sink on file
    descriptor 1. *)
Theorem buildPlaybackPipeline_stages (codec : Codec) s :
  let b := self s in
  let src := gst.PulseSrc (userID b) "kvdi.monitor" (channels b) (sampleRate b) in
  let sink := gst.FdSink 1 in
  exists p logged,
    buildPlaybackPipeline codec s = Done p (mkState b (trace s ++ logged)) /\
    ((codec = "vorbis" /\ logged = [] /\
        gst.stages p = [src; gst.VorbisEncode; gst.OggMux; sink]) \/
     (codec = "opus" /\ logged = [] /\
        gst.stages p = [src; gst.Cutter; gst.OpusEncode; gst.WebmMux; sink]) \/
     (codec = "mp3" /\ logged = [] /\
        gst.stages p = [src; gst.LameEncode; sink]) \/
     (codec <> "vorbis" /\ codec <> "opus" /\ codec <> "mp3" /\
        logged = [LogInfo (logger b)
                    ("Invalid codec for gst pipeline " +:+ codec
                     +:+ ", defaulting to opus/webm")] /\
        gst.stages p = [src; gst.Cutter; gst.OpusEncode; gst.WebmMux; sink])).
Proof.
  intros b src sink. unfold buildPlaybackPipeline. step.
  unfold CodecVorbis, CodecOpus, CodecMP3.
  destruct (String.eqb_spec codec "vorbis") as [->|Hv].
  { simpl. exists (gst.WithFdSink 1 (gst.WithOggMux (gst.WithVorbisEncode
      (gst.WithPulseSrc (userID b) "kvdi.monitor" (channels b) (sampleRate b)
         (gst.NewPipeline (userID b) (WithName (logger b) "gst_playback")))))), [].
    rewrite app_nil_r. destruct s; auto. }
  destruct (String.eqb_spec codec "opus") as [->|Ho].
  { simpl. eexists _, []. rewrite app_nil_r. destruct s.
    split; [reflexivity|]. right. left. auto. }
  destruct (String.eqb_spec codec "mp3") as [->|Hm].
  { simpl. eexists _, []. rewrite app_nil_r. destruct s.
    split; [reflexivity|]. right. right. left. auto. }
  simpl. eexists _, [_]. split; [reflexivity|].
  right. right. right. auto 10.
Qed.

(** The declared codec "raw" has no case of its own. *)
Example buildPlaybackPipeline_raw :
  buildPlaybackPipeline CodecRaw samples.fresh =
    Done (gst.mkPipeline "1000" (mkLogger ["audio_buffer"; "gst_playback"])
            [gst.PulseSrc "1000" "kvdi.monitor" 2 24000; gst.Cutter;
             gst.OpusEncode; gst.WebmMux; gst.FdSink 1] false false)
         (mkState (self samples.fresh)
            [LogInfo (mkLogger ["audio_buffer"])
               "Invalid codec for gst pipeline raw, defaulting to opus/webm"]).
Proof. vm_compute. reflexivity. Qed.

(** C7.  When a device-provisioning step of [setupDevices] fails
    ([AddSink] of "kvdi"/"kvdi-playback", or after it [AddSource] of the
    FIFO-backed source with format s16le, 1 channel, 16000 Hz, or after
    both [SetDefaultSource]), [Start] returns that error; the three
    pipeline fields are as they were (nothing is built) and the only
    events are DeviceManager calls (nothing is started, nothing logged,
    no goroutine launched). *)
Theorem Start_provisioning_failure env (codec : Codec) s e :
  let fifo := "/run/user/" +:+ userID (self s) +:+ "/pulse/mic.fifo" in
  pa_AddSink env "kvdi" "kvdi-playback" = Some e \/
  (pa_AddSink env "kvdi" "kvdi-playback" = None /\
   pa_AddSource env "virtmic" "kvdi-microphone" fifo "s16le" 1 16000 = Some e) \/
  (pa_AddSink env "kvdi" "kvdi-playback" = None /\
   pa_AddSource env "virtmic" "kvdi-microphone" fifo "s16le" 1 16000 = None /\
   pa_SetDefaultSource env "virtmic" = Some e) ->
  exists s' evs,
    Start env codec s = Done (Some e) s' /\
    pbkPipeline (self s') = pbkPipeline (self s) /\
    bufPipeline (self s') = bufPipeline (self s) /\
    recPipeline (self s') = recPipeline (self s) /\
    trace s' = trace s ++ evs /\
    forallb paEvent evs = true.
Proof.
  intros fifo H. unfold Start.
  pose proof (setupDevices_run env s) as HS. cbv zeta in HS. fold fifo in HS.
  destruct H as [H1 | [[H1 H2] | [H1 [H2 H3]]]].
  - rewrite H1 in HS. rewrite (or_return_err _ _ _ _ _ HS).
    do 2 eexists. repeat split.
  - rewrite H1, H2 in HS. rewrite (or_return_err _ _ _ _ _ HS).
    do 2 eexists. repeat split.
  - rewrite H1, H2, H3 in HS. rewrite (or_return_err _ _ _ _ _ HS).
    do 2 eexists. repeat split.
Qed.

(** Starting a pipeline does not touch its closed flag. *)
Lemma gst_Start_closed spawn p :
  gst.closed (snd (gst.Start spawn p)) = gst.closed p.
Proof. unfold gst.Start. destruct (spawn p); reflexivity. Qed.

(** The playback pipeline is always built, is new (neither started nor
    closed), and building it changes nothing in the Buffer. *)
Lemma buildPlaybackPipeline_new (codec : Codec) s :
  exists p logged,
    buildPlaybackPipeline codec s = Done p (mkState (self s) (trace s ++ logged)) /\
    gst.closed p = false.
Proof.
  unfold buildPlaybackPipeline. step.
  destruct (String.eqb codec CodecVorbis); simpl.
  { eexists _, []. rewrite app_nil_r. destruct s. split; reflexivity. }
  destruct (String.eqb codec CodecOpus); simpl.
  { eexists _, []. rewrite app_nil_r. destruct s. split; reflexivity. }
  destruct (String.eqb codec CodecMP3); simpl.
  { eexists _, []. rewrite app_nil_r. destruct s. split; reflexivity. }
  eexists _, [_]. split; reflexivity.
Qed.

(** After a [Start] that returned no error the three pipelines exist and
    the Buffer does not report closed: the playback pipeline has just
    been built. *)
Lemma Start_ok_open env (codec : Codec) s s' :
  Start env codec s = Done None s' ->
  exists pbk buf rec,
    field Pbk (self s') = Some pbk /\
    field Buf (self s') = Some buf /\
    field Rec (self s') = Some rec /\
    IsClosed s' = Done false s'.
Proof.
  unfold Start. intros H.
  pose proof (setupDevices_run env s) as HS. cbv zeta in HS.
  destruct (pa_AddSink env "kvdi" "kvdi-playback");
    [rewrite (or_return_err _ _ _ _ _ HS) in H; discriminate|].
  destruct (pa_AddSource env _ _ _ _ _ _);
    [rewrite (or_return_err _ _ _ _ _ HS) in H; discriminate|].
  destruct (pa_SetDefaultSource env "virtmic");
    [rewrite (or_return_err _ _ _ _ _ HS) in H; discriminate|].
  rewrite (or_return_ok _ _ _ _ HS) in H. clear HS.
  match type of H with context [buildPlaybackPipeline codec] =>
    match type of H with _ ?st = _ =>
      destruct (buildPlaybackPipeline_new codec st) as (p & logged & HB & Hc)
    end
  end.
  rewrite (bind_Done _ _ _ _ _ HB) in H. clear HB.
  unfold buildRecordingPipelines in H.
  unfold bind at 1 2 3 4 5 6 in H. simpl in H.
  unfold or_return at 1 in H. unfold bind at 1 in H.
  erewrite pipelineStart_Some in H by (simpl; reflexivity).
  unfold gst.Start at 1 in H.
  destruct (gst_spawn env p); [discriminate|]. simpl in H.
  unfold or_return at 1 in H. unfold bind at 1 in H.
  erewrite pipelineStart_Some in H by (simpl; reflexivity).
  unfold gst.Start at 1 in H.
  destruct (gst_spawn env _); [discriminate|]. simpl in H.
  unfold bind, emit, ret in H. simpl in H.
  inversion H; subst; clear H. simpl.
  do 3 eexists. repeat split.
  erewrite IsClosed_run by (simpl; reflexivity).
  unfold gst.IsClosed. rewrite gst_Start_closed, Hc. reflexivity.
Qed.

(** C6.  On a started Buffer [Wait] waits for the playback, the
    network-buffer and the recorder pipeline, in that order and all three
    whatever the earlier ones returned.  When at least one of them exited
    with an error the result is one error whose message is the messages of
    the failing pipelines, in the same order, joined with " : "; when all
    three exited cleanly the result is nil. *)
Theorem Wait_joins_errors env s pbk buf rec :
  field Pbk (self s) = Some pbk ->
  field Buf (self s) = Some buf ->
  field Rec (self s) = Some rec ->
  let failures :=
    omap (fun p => Error_msg <$> gst.Wait (gst_exit env) p) [pbk; buf; rec] in
  Wait env s =
    Done (match failures with
          | [] => None
          | _ :: _ => Some (errors_New (gostd.Join failures " : "))
          end)
         (mkState (self s) (trace s ++ [GstWait Pbk; GstWait Buf; GstWait Rec])).
Proof.
  intros Hp Hb Hr failures. unfold Wait.
  rewrite (bind_Done _ _ _ _ _ (pipelineWait_Some env s Pbk pbk Hp)).
  cbv beta zeta.
  rewrite (bind_Done _ _ _ _ _
             (pipelineWait_Some env (mkState (self s) (trace s ++ [GstWait Pbk]))
                Buf buf Hb)).
  cbv beta zeta. simpl self. simpl trace.
  rewrite (bind_Done _ _ _ _ _
             (pipelineWait_Some env
                (mkState (self s) ((trace s ++ [GstWait Pbk]) ++ [GstWait Buf]))
                Rec rec Hr)).
  cbv beta zeta.
  subst failures. unfold gst.Wait. simpl trace. rewrite <- !app_assoc. simpl.
  destruct (gst_exit env pbk) as [[m1]|], (gst_exit env buf) as [[m2]|],
           (gst_exit env rec) as [[m3]|]; reflexivity.
Qed.

Example Wait_all_fail :
  exists s',
    Wait (samples.exit_fails ["gst_playback"; "gst_buffer"; "gst_recorder"])
         (samples.started samples.quiet) =
      Done (Some (errors_New
              "exit gst_playback : exit gst_buffer : exit gst_recorder")) s'.
Proof. eexists. vm_compute. reflexivity. Qed.

(** *** The readiness poll *)

(** While the file is read without error and does not list the port, and
    [tries] differs from [retries], a tick of the loop ends where it
    began: with the same [tries].  So the loop is still running after any
    number of ticks, one check per tick. *)
Lemma pollTicks_keeps_polling env proto pid port retries period portHex tries :
  tries <> retries ->
  let path := "/proc/" +:+ gostd.FormatInt10 pid +:+ "/net/" +:+ proto in
  (forall k, exists body,
      proc_read env path k = Contents body /\
      gostd.Contains body portHex = false) ->
  forall fuel k s,
    pollTicks env proto pid port retries period portHex fuel k tries s =
      Looping (mkState (self s)
                 (trace s ++ concat (replicate fuel [Tick period; ProcOpen path]))).
Proof.
  intros Hne path Hquiet fuel.
  induction fuel as [|fuel IH]; intros k s.
  - simpl. rewrite app_nil_r. destruct s; reflexivity.
  - destruct (Hquiet k) as (body & Hread & Hnot).
    cbn [pollTicks]. step. fold path. rewrite Hread, Hnot.
    destruct (Z.eqb_spec tries retries) as [Heq|_]; [contradiction|].
    rewrite IH. simpl. rewrite <- !app_assoc. reflexivity.
Qed.

(** C1, on the code.  With the arguments of [Start]'s goroutine
    (retries = 5, interval = 1) and a /proc file that is read without
    error and never lists port 9004 ("232C"), [waitForProcPort] has not
    returned after any number of ticks: [tries] stays 0, the comparison
    with [retries] never succeeds, and no retry-limit error is produced.
    After [fuel] ticks it has made [fuel] checks, one second apart, and
    is still in the loop. *)
Theorem waitForProcPort_never_gives_up env (fuel : nat) (pid : Z) s :
  let path := "/proc/" +:+ gostd.FormatInt10 pid +:+ "/net/tcp" in
  (forall k, exists body,
      proc_read env path k = Contents body /\
      gostd.Contains body "232C" = false) ->
  waitForProcPort env fuel "tcp" pid 9004 5 1 s =
    Looping (mkState (self s)
               (trace s ++ concat (replicate fuel
                                     [Tick 1000000000; ProcOpen path]))).
Proof.
  intros path Hquiet. unfold waitForProcPort.
  change (gostd.ToUpper (gostd.FormatInt16 9004)) with "232C".
  change (gostd.wrap64 (gostd.Second * 1)) with 1000000000.
  change (Z.leb 1000000000 0) with false. cbv iota.
  apply pollTicks_keeps_polling; [discriminate | exact Hquiet].
Qed.

(** The goroutine of [Start] in such a world: it never gets past the
    poll, so it neither starts the recorder pipeline nor logs anything. *)
Lemma Start_func1_stuck env (fuel : nat) s buf :
  field Buf (self s) = Some buf ->
  let path := "/proc/" +:+ gostd.FormatInt10 (gst_pid env buf) +:+ "/net/tcp" in
  (forall k, exists body,
      proc_read env path k = Contents body /\
      gostd.Contains body "232C" = false) ->
  Start_func1 env fuel s =
    Looping (mkState (self s)
               (trace s ++ concat (replicate fuel
                                     [Tick 1000000000; ProcOpen path]))).
Proof.
  intros Hb path Hquiet. unfold Start_func1, pipelinePid.
  unfold bind at 1 2. rewrite (deref_Some _ _ _ Hb). unfold ret at 1.
  unfold bind, waitForProcPort.
  change (gostd.ToUpper (gostd.FormatInt16 9004)) with "232C".
  change (gostd.wrap64 (gostd.Second * 1)) with 1000000000.
  change (Z.leb 1000000000 0) with false. cbv iota.
  rewrite pollTicks_keeps_polling; [reflexivity | discriminate | exact Hquiet].
Qed.

(** The one retry budget the comparison ever meets is 0: the error then
    comes after the first check. *)
Example waitForProcPort_zero_retries :
  waitForProcPort samples.quiet 9 "tcp" 4242 9004 0 1 samples.fresh =
    Done (Some (errors_New "Hit retry limit waiting for port tcp/9004 on PID 4242"))
         (mkState (self samples.fresh)
            [Tick 1000000000; ProcOpen "/proc/4242/net/tcp"]).
Proof. vm_compute. reflexivity. Qed.

(** *** The theorems on concrete Buffers *)

Lemma waitForProcPort_never_gives_up_witness :
  (forall k : nat, exists body,
      proc_read samples.quiet "/proc/4242/net/tcp" k = Contents body /\
      gostd.Contains body "232C" = false) /\
  waitForProcPort samples.quiet 6 "tcp" 4242 9004 5 1 (samples.started samples.quiet) =
    Looping (mkState (self (samples.started samples.quiet))
               (trace (samples.started samples.quiet) ++
                concat (replicate 6 [Tick 1000000000;
                                     ProcOpen "/proc/4242/net/tcp"]))).
Proof.
  assert (forall k : nat, exists body,
             proc_read samples.quiet "/proc/4242/net/tcp" k = Contents body /\
             gostd.Contains body "232C" = false) as Hquiet.
  { intros k. exists "". split; reflexivity. }
  split; [exact Hquiet|].
  exact (waitForProcPort_never_gives_up samples.quiet 6 4242
           (samples.started samples.quiet) Hquiet).
Defined.

Lemma IsClosed_iff_all_four_witness :
  field Pbk (self samples.shut) = Some (samples.pipeline Pbk samples.shut) /\
  field Buf (self samples.shut) = Some (samples.pipeline Buf samples.shut) /\
  field Rec (self samples.shut) = Some (samples.pipeline Rec samples.shut) /\
  exists r : bool,
    IsClosed samples.shut = Done r samples.shut /\
    (r = true <->
     gst.IsClosed (samples.pipeline Pbk samples.shut) = true /\
     gst.IsClosed (samples.pipeline Rec samples.shut) = true /\
     gst.IsClosed (samples.pipeline Buf samples.shut) = true /\
     closed (self samples.shut) = true).
Proof.
  do 3 (split; [vm_compute; reflexivity|]).
  apply (IsClosed_iff_all_four samples.shut); vm_compute; reflexivity.
Defined.

Lemma Close_sequence_witness :
  let s := samples.started samples.quiet in
  field Pbk (self s) = Some (samples.pipeline Pbk s) /\
  field Buf (self s) = Some (samples.pipeline Buf s) /\
  field Rec (self s) = Some (samples.pipeline Rec s) /\
  IsClosed s = Done false s /\
  exists s',
    Close (samples.kill_fails ["gst_buffer"]) s =
      Done (Some (errors_New "kill gst_buffer")) s' /\
    trace s' = trace s ++ [GstClose Pbk; GstClose Buf] /\
    closed (self s') = false.
Proof.
  intros s.
  assert (field Pbk (self s) = Some (samples.pipeline Pbk s)) as Hp
    by (vm_compute; reflexivity).
  assert (field Buf (self s) = Some (samples.pipeline Buf s)) as Hb
    by (vm_compute; reflexivity).
  assert (field Rec (self s) = Some (samples.pipeline Rec s)) as Hr
    by (vm_compute; reflexivity).
  assert (IsClosed s = Done false s) as Hopen by (vm_compute; reflexivity).
  do 4 (split; [assumption|]).
  destruct (Close_sequence (samples.kill_fails ["gst_buffer"]) s
              (samples.pipeline Pbk s) (samples.pipeline Buf s)
              (samples.pipeline Rec s) Hp Hb Hr Hopen)
    as (r & s' & HC & Hcases).
  exists s'.
  destruct Hcases as [(e & K & _) | [(e & _ & K & -> & Ht & Hc & _) |
                      [(e & _ & K & _) | (_ & K & _)]]];
    try (vm_compute in K; discriminate).
  vm_compute in K. injection K as <-.
  split; [exact HC|]. split; [exact Ht|]. rewrite Hc. vm_compute. reflexivity.
Defined.

Lemma Close_idempotent_witness :
  let s := samples.shut in
  field Pbk (self s) = Some (samples.pipeline Pbk s) /\
  field Buf (self s) = Some (samples.pipeline Buf s) /\
  field Rec (self s) = Some (samples.pipeline Rec s) /\
  gst.IsClosed (samples.pipeline Pbk s) = true /\
  gst.IsClosed (samples.pipeline Buf s) = true /\
  gst.IsClosed (samples.pipeline Rec s) = true /\
  closed (self s) = true /\
  Close (samples.kill_fails ["gst_playback"; "gst_buffer"; "gst_recorder"]) s =
    Done None s.
Proof.
  intros s. do 7 (split; [vm_compute; reflexivity|]).
  apply (Close_idempotent _ s (samples.pipeline Pbk s) (samples.pipeline Buf s)
           (samples.pipeline Rec s)); vm_compute; reflexivity.
Defined.



Lemma Wait_joins_errors_witness :
  let s := samples.started samples.quiet in
  field Pbk (self s) = Some (samples.pipeline Pbk s) /\
  field Buf (self s) = Some (samples.pipeline Buf s) /\
  field Rec (self s) = Some (samples.pipeline Rec s) /\
  Wait (samples.exit_fails ["gst_playback"; "gst_recorder"]) s =
    Done (Some (errors_New "exit gst_playback : exit gst_recorder"))
         (mkState (self s) (trace s ++ [GstWait Pbk; GstWait Buf; GstWait Rec])).
Proof.
  intros s.
  assert (field Pbk (self s) = Some (samples.pipeline Pbk s)) as Hp
    by (vm_compute; reflexivity).
  assert (field Buf (self s) = Some (samples.pipeline Buf s)) as Hb
    by (vm_compute; reflexivity).
  assert (field Rec (self s) = Some (samples.pipeline Rec s)) as Hr
    by (vm_compute; reflexivity).
  do 3 (split; [assumption|]).
  rewrite (Wait_joins_errors (samples.exit_fails ["gst_playback"; "gst_recorder"]) s
             (samples.pipeline Pbk s) (samples.pipeline Buf s)
             (samples.pipeline Rec s) Hp Hb Hr).
  vm_compute. reflexivity.
Defined.

Lemma Start_provisioning_failure_witness :
  (pa_AddSink (samples.pa_fails 2) "kvdi" "kvdi-playback" = None /\
   pa_AddSource (samples.pa_fails 2) "virtmic" "kvdi-microphone"
     "/run/user/1000/pulse/mic.fifo" "s16le" 1 16000 =
     Some (errors_New "mkfifo failed")) /\
  exists s' evs,
    Start (samples.pa_fails 2) CodecOpus samples.fresh =
      Done (Some (errors_New "mkfifo failed")) s' /\
    pbkPipeline (self s') = None /\
    bufPipeline (self s') = None /\
    recPipeline (self s') = None /\
    trace s' = evs /\
    forallb paEvent evs = true.
Proof.
  split; [split; reflexivity|].
  destruct (Start_provisioning_failure (samples.pa_fails 2) CodecOpus samples.fresh
              (errors_New "mkfifo failed")
              (or_intror (or_introl (conj eq_refl eq_refl))))
    as (s' & evs & HS & Hp & Hb & Hr & Ht & Hev).
  exists s', evs. repeat split; assumption.
Defined.

End buffer_properties.

(** ** Properties of the creation-spec annotation *)

Section annotation_properties.
Import k8sutil.

Variable Object : Type.
Variable json_Marshal : Object -> list Byte.byte + Error.
Variable sha256_Sum : list Byte.byte -> list Byte.byte.
Variable key : string.

(** What [SetCreationSpecAnnotation] returns, by the outcome of
    [json.Marshal]; the nil map is replaced by an empty one first. *)
Lemma SetCreationSpecAnnotation_run meta obj :
  SetCreationSpecAnnotation json_Marshal sha256_Sum key meta obj =
    match json_Marshal obj with
    | inr err => (Some err, meta)
    | inl spec =>
        (None,
         SetAnnotations
           (<[key := Sprintf_x (sha256_Sum spec)]>
              (default (∅ : gmap string string) (GetAnnotations meta)))
           meta)
    end.
Proof.
  unfold SetCreationSpecAnnotation, hash_Write.
  destruct (json_Marshal obj); [|reflexivity].
  destruct (GetAnnotations meta); reflexivity.
Qed.

Lemma index_default (a : option (gmap string string)) k :
  default (∅ : gmap string string) a !! k = index a k.
Proof. destruct a; simpl; [reflexivity | apply lookup_empty]. Qed.

(** C9.  [SetCreationSpecAnnotation] leaves every annotation key other
    than the creation-spec key as it was, and the other fields of the
    metadata too; it returns an error exactly when [json.Marshal] does,
    so a nil annotation map is no cause of failure: starting from nil,
    a successful call leaves a map that holds the one key. *)
Theorem SetCreationSpecAnnotation_frame meta obj :
  let r := SetCreationSpecAnnotation json_Marshal sha256_Sum key meta obj in
  (forall k, k <> key ->
     index (GetAnnotations (snd r)) k = index (GetAnnotations meta) k) /\
  (Name (snd r) = Name meta /\ Namespace (snd r) = Namespace meta /\
   Labels (snd r) = Labels meta) /\
  fst r = match json_Marshal obj with inl _ => None | inr err => Some err end /\
  (forall spec, json_Marshal obj = inl spec ->
     GetAnnotations meta = None ->
     fst r = None /\
     GetAnnotations (snd r) =
       Some {[ key := Sprintf_x (sha256_Sum spec) ]}).
Proof.
  intros r. subst r. rewrite SetCreationSpecAnnotation_run.
  destruct (json_Marshal obj) as [spec|err]; simpl.
  - split; [|split; [auto|split; [reflexivity|]]].
    + intros k Hk. rewrite lookup_insert_ne by congruence. apply index_default.
    + intros spec' [= <-] Hnil. rewrite Hnil. simpl.
      split; [reflexivity|]. rewrite insert_empty. reflexivity.
  - split; [auto|]. split; [auto|]. split; [reflexivity|].
    intros spec' [=].
Qed.

End annotation_properties.

(** The theorem on concrete metadata.  The objects are strings that
    marshal to their bytes; the theorem holds whatever the digest function
    computes, and the identity stands for it here. *)

Lemma SetCreationSpecAnnotation_frame_witness :
  let marshal := fun o : string => inl (String.list_byte_of_string o) in
  let digest := fun b : list Byte.byte => b in
  let meta := k8sutil.mkObjectMeta "desktop" "default" None None in
  marshal "spec" = inl (String.list_byte_of_string "spec") /\
  k8sutil.GetAnnotations meta = None /\
  fst (k8sutil.SetCreationSpecAnnotation marshal digest "kvdi.io/creation-spec"
         meta "spec") = None /\
  k8sutil.GetAnnotations
    (snd (k8sutil.SetCreationSpecAnnotation marshal digest "kvdi.io/creation-spec"
            meta "spec")) =
    Some {[ "kvdi.io/creation-spec" :=
              k8sutil.Sprintf_x (digest (String.list_byte_of_string "spec")) ]}.
Proof.
  intros marshal digest meta.
  split; [reflexivity|]. split; [reflexivity|].
  destruct (SetCreationSpecAnnotation_frame string marshal digest
              "kvdi.io/creation-spec" meta "spec") as (_ & _ & _ & H).
  exact (H (String.list_byte_of_string "spec") eq_refl eq_refl).
Defined.

(** ** Further properties of the readiness poll *)

Section poll_properties.
Import audio.

Implicit Types (s : State) (env : Env).

Lemma wrap64_small z :
  - 2 ^ 63 <= z < 2 ^ 63 -> gostd.wrap64 z = z.
Proof. intros H. unfold gostd.wrap64. rewrite Z.mod_small; lia. Qed.

Lemma ticker_period interval :
  - 9223372036 <= interval <= 9223372036 ->
  gostd.wrap64 (gostd.Second * interval) = 1000000000 * interval.
Proof. intros H. unfold gostd.Second. apply wrap64_small. lia. Qed.

Lemma concat_replicate_snoc {A} (l : list A) n :
  concat (replicate n l) ++ l = concat (replicate (S n) l).
Proof.
  induction n as [|n IH]; simpl; [rewrite app_nil_r; reflexivity|].
  rewrite <- app_assoc, IH. reflexivity.
Qed.

(** [n] ticks at which the file is read and does not list the port leave
    the loop where it was, [n] ticks later. *)
Lemma pollTicks_quiet_prefix env proto pid port retries period portHex tries n :
  tries <> retries ->
  let path := "/proc/" +:+ gostd.FormatInt10 pid +:+ "/net/" +:+ proto in
  forall fuel k s,
    (forall j, (j < n)%nat -> exists b,
        proc_read env path (k + j) = Contents b /\
        gostd.Contains b portHex = false) ->
    pollTicks env proto pid port retries period portHex (n + fuel) k tries s =
    pollTicks env proto pid port retries period portHex fuel (k + n) tries
      (mkState (self s)
         (trace s ++ concat (replicate n [Tick period; ProcOpen path]))).
Proof.
  intros Hne path. induction n as [|n IH]; intros fuel k s Hquiet.
  - simpl. rewrite app_nil_r, Nat.add_0_r. destruct s; reflexivity.
  - destruct (Hquiet 0%nat ltac:(lia)) as (b & Hread & Hnot).
    rewrite Nat.add_0_r in Hread.
    change (S n + fuel)%nat with (S (n + fuel)). cbn [pollTicks].
    unfold bind, emit. simpl. fold path. rewrite Hread, Hnot.
    destruct (Z.eqb_spec tries retries) as [Heq|_]; [contradiction|].
    rewrite IH.
    + simpl. rewrite <- !app_assoc. simpl.
      rewrite Nat.add_succ_r. reflexivity.
    + intros j Hj. replace (S k + j)%nat with (k + S j)%nat by lia.
      apply Hquiet. lia.
Qed.

(** The loop never panics. *)
Lemma pollTicks_no_panic env proto pid port retries period portHex tries :
  forall fuel k s r s',
    pollTicks env proto pid port retries period portHex fuel k tries s <> Panic r s'.
Proof.
  induction fuel as [|fuel IH]; intros k s r s'; [discriminate|].
  cbn [pollTicks]. unfold bind, emit, ret. simpl.
  destruct (proc_read env _ k); try discriminate.
  destruct (gostd.Contains body portHex); [discriminate|].
  destruct (Z.eqb tries retries); [discriminate|]. apply IH.
Qed.


(** X1.  For an interval of 1 to 9223372036 seconds (the range in which
    the ticker period, in nanoseconds, is positive and fits 64 bits)
    [waitForProcPort] returns nil at the first tick at which the file lists
    the port: when the first [n] reads succeed without listing it and read
    [n] lists it, the call returns nil after exactly [n + 1] checks, one
    ticker period apart.  A retry budget of 0 allows no unsuccessful check,
    so then the port has to be there at once. *)
Theorem waitForProcPort_port_appears env (fuel : nat) proto pid port retries
    interval s (n : nat) body :
  0 < interval <= 9223372036 ->
  let path := "/proc/" +:+ gostd.FormatInt10 pid +:+ "/net/" +:+ proto in
  let portHex := gostd.ToUpper (gostd.FormatInt16 port) in
  (forall k, (k < n)%nat -> exists b,
      proc_read env path k = Contents b /\ gostd.Contains b portHex = false) ->
  proc_read env path n = Contents body ->
  gostd.Contains body portHex = true ->
  n = 0%nat \/ retries <> 0 ->
  (n < fuel)%nat ->
  waitForProcPort env fuel proto pid port retries interval s =
    Done None
      (mkState (self s)
         (trace s ++ concat (replicate (S n)
                               [Tick (1000000000 * interval); ProcOpen path]))).
Proof.
  intros Hi path portHex Hquiet Hread Hfound Hbudget Hfuel.
  unfold waitForProcPort. rewrite ticker_period by lia.
  destruct (Z.leb_spec (1000000000 * interval) 0) as [Hle|_]; [lia|].
  fold portHex.
  assert (forall fuel' k0 s0,
             proc_read env path k0 = Contents body ->
             pollTicks env proto pid port retries (1000000000 * interval)
               portHex (S fuel') k0 0 s0 =
             Done None (mkState (self s0)
                          (trace s0 ++ [Tick (1000000000 * interval); ProcOpen path])))
    as Hlast.
  { intros fuel' k0 s0 Hr. cbn [pollTicks]. unfold bind, emit, ret. simpl.
    fold path. rewrite Hr, Hfound. rewrite <- app_assoc. reflexivity. }
  destruct Hbudget as [-> | Hne].
  - destruct fuel as [|fuel]; [lia|]. rewrite (Hlast _ _ _ Hread).
    simpl. reflexivity.
  - replace fuel with (n + S (fuel - S n))%nat by lia.
    rewrite pollTicks_quiet_prefix; [|congruence|].
    + simpl plus. rewrite (Hlast _ _ _ Hread). simpl self. simpl trace.
      rewrite <- app_assoc. fold path.
      rewrite (concat_replicate_snoc [Tick (1000000000 * interval); ProcOpen path] n).
      reflexivity.
    + intros j Hj. simpl. apply Hquiet. exact Hj.
Qed.

(** With a positive interval, [n] quiet reads take [waitForProcPort] into
    tick [n] of its loop. *)
Lemma waitForProcPort_skip env proto pid port retries interval s (n : nat) :
  0 < interval <= 9223372036 ->
  let path := "/proc/" +:+ gostd.FormatInt10 pid +:+ "/net/" +:+ proto in
  let portHex := gostd.ToUpper (gostd.FormatInt16 port) in
  (forall k, (k < n)%nat -> exists b,
      proc_read env path k = Contents b /\ gostd.Contains b portHex = false) ->
  n = 0%nat \/ retries <> 0 ->
  forall fuel : nat,
    waitForProcPort env (n + fuel) proto pid port retries interval s =
    pollTicks env proto pid port retries (1000000000 * interval) portHex fuel n 0
      (mkState (self s)
         (trace s ++ concat (replicate n
                               [Tick (1000000000 * interval); ProcOpen path]))).
Proof.
  intros Hi path portHex Hquiet Hbudget fuel.
  unfold waitForProcPort. rewrite ticker_period by lia.
  destruct (Z.leb_spec (1000000000 * interval) 0) as [Hle|_]; [lia|].
  fold portHex. destruct Hbudget as [-> | Hne].
  - simpl. rewrite app_nil_r. destruct s; reflexivity.
  - rewrite pollTicks_quiet_prefix; [reflexivity | congruence | exact Hquiet].
Qed.

(** X2.  For an interval of 1 to 9223372036 seconds (the range in which
    the ticker period, in nanoseconds, is positive and fits 64 bits)
    [waitForProcPort] gives up on the first file error: when the first [n]
    reads succeed without listing the port and opening, reading or closing
    the file fails at read [n], that error is returned after [n + 1]
    checks, whatever the retry budget (0 apart, which allows no earlier
    unsuccessful check). *)
Theorem waitForProcPort_read_error env (fuel : nat) proto pid port retries
    interval s (n : nat) err :
  0 < interval <= 9223372036 ->
  let path := "/proc/" +:+ gostd.FormatInt10 pid +:+ "/net/" +:+ proto in
  let portHex := gostd.ToUpper (gostd.FormatInt16 port) in
  (forall k, (k < n)%nat -> exists b,
      proc_read env path k = Contents b /\ gostd.Contains b portHex = false) ->
  proc_read env path n = OpenFails err \/
  proc_read env path n = ReadFails err \/
  proc_read env path n = CloseFails err ->
  n = 0%nat \/ retries <> 0 ->
  (n < fuel)%nat ->
  waitForProcPort env fuel proto pid port retries interval s =
    Done (Some err)
      (mkState (self s)
         (trace s ++ concat (replicate (S n)
                               [Tick (1000000000 * interval); ProcOpen path]))).
Proof.
  intros Hi path portHex Hquiet Hfail Hbudget Hfuel.
  replace fuel with (n + S (fuel - S n))%nat by lia.
  rewrite (waitForProcPort_skip env proto pid port retries interval s n Hi Hquiet Hbudget).
  cbn [pollTicks]. unfold bind, emit, ret. simpl self. simpl trace. fold path.
  rewrite <- !app_assoc. simpl app.
  rewrite (concat_replicate_snoc [Tick (1000000000 * interval); ProcOpen path] n).
  destruct Hfail as [-> | [-> | ->]]; reflexivity.
Qed.


(** X4.  [waitForProcPort] panics exactly when the interval is not
    positive, for intervals whose nanosecond count fits 64 bits:
    [time.NewTicker] rejects the period before the first check. *)
Theorem waitForProcPort_panics_iff env (fuel : nat) proto pid port retries interval s :
  - 9223372036 <= interval <= 9223372036 ->
  (exists r s', waitForProcPort env fuel proto pid port retries interval s
                = Panic r s') <->
  interval <= 0.
Proof.
  intros Hi. unfold waitForProcPort. rewrite ticker_period by lia.
  destruct (Z.leb_spec (1000000000 * interval) 0) as [Hle|Hgt].
  - split; [lia|]. intros _. do 2 eexists. reflexivity.
  - split; [|lia]. intros (r & s' & H). exfalso.
    exact (pollTicks_no_panic _ _ _ _ _ _ _ _ _ _ _ _ _ H).
Qed.

End poll_properties.

(** ** Further properties of Start, Close and the goroutine *)

Section lifecycle_properties.
Import audio.

Implicit Types (s : State) (env : Env) (p : gst.Pipeline).

(** The playback pipeline depends on the Buffer through its user, logger,
    channels and sample rate only. *)
Lemma buildPlaybackPipeline_congr (codec : Codec) s1 s2 p logged :
  userID (self s1) = userID (self s2) ->
  logger (self s1) = logger (self s2) ->
  channels (self s1) = channels (self s2) ->
  sampleRate (self s1) = sampleRate (self s2) ->
  buildPlaybackPipeline codec s1 = Done p (mkState (self s1) (trace s1 ++ logged)) ->
  buildPlaybackPipeline codec s2 = Done p (mkState (self s2) (trace s2 ++ logged)).
Proof.
  intros Hu Hl Hc Hr. unfold buildPlaybackPipeline, bind, gets, ret, emit. simpl.
  rewrite Hu, Hl, Hc, Hr.
  assert (forall l1 : list Event, trace s1 = trace s1 ++ l1 -> l1 = []) as Hnil.
  { intros l1 H. apply (app_inv_head (trace s1)). rewrite app_nil_r. symmetry. exact H. }
  destruct (String.eqb codec CodecVorbis); simpl.
  { destruct s1 as [b1 t1], s2 as [b2 t2]; simpl in *. intros [= <- H].
    rewrite (Hnil _ H), app_nil_r. reflexivity. }
  destruct (String.eqb codec CodecOpus); simpl.
  { destruct s1 as [b1 t1], s2 as [b2 t2]; simpl in *. intros [= <- H].
    rewrite (Hnil _ H), app_nil_r. reflexivity. }
  destruct (String.eqb codec CodecMP3); simpl.
  { destruct s1 as [b1 t1], s2 as [b2 t2]; simpl in *. intros [= <- H].
    rewrite (Hnil _ H), app_nil_r. reflexivity. }
  intros [= <- H]. apply app_inv_head in H. subst logged. reflexivity.
Qed.

(** The recording pipelines depend on the Buffer through its user and
    logger only, and building them does nothing else. *)
Lemma buildRecordingPipelines_congr (codec : Codec) s1 s2 bufrec s1' :
  userID (self s1) = userID (self s2) ->
  logger (self s1) = logger (self s2) ->
  buildRecordingPipelines codec s1 = Done bufrec s1' ->
  buildRecordingPipelines codec s2 = Done bufrec s2.
Proof.
  intros Hu Hl. unfold buildRecordingPipelines, bind, gets, ret. simpl.
  rewrite Hu, Hl. intros [= <- _]. reflexivity.
Qed.

(** [Start] once the devices are provisioned: the pipelines are built and
    stored, then the playback and the network-buffer pipeline are started
    in that order, each start guarded by the one before. *)
Lemma Start_run env (codec : Codec) s p logged buf0 rec0 s0 :
  pa_AddSink env "kvdi" "kvdi-playback" = None ->
  pa_AddSource env "virtmic" "kvdi-microphone"
    ("/run/user/" +:+ userID (self s) +:+ "/pulse/mic.fifo") "s16le" 1 16000 = None ->
  pa_SetDefaultSource env "virtmic" = None ->
  buildPlaybackPipeline codec s = Done p (mkState (self s) (trace s ++ logged)) ->
  buildRecordingPipelines codec s = Done (buf0, rec0) s0 ->
  let fifo := "/run/user/" +:+ userID (self s) +:+ "/pulse/mic.fifo" in
  let evs := [PaAddSink "kvdi" "kvdi-playback";
              PaAddSource "virtmic" "kvdi-microphone" fifo "s16le" 1 16000;
              PaSetDefaultSource "virtmic"] ++ logged in
  let d := pa.designate "virtmic"
             (pa.provision "virtmic" (pa.provision "kvdi" (deviceManager (self s)))) in
  let c1 := gst.Start (gst_spawn env) p in
  let c2 := gst.Start (gst_spawn env) buf0 in
  let b4 := assign Rec (Some rec0)
              (assign Buf (Some buf0)
                 (assign Pbk (Some p) (with_deviceManager d (self s)))) in
  let b5 := assign Pbk (Some (snd c1)) b4 in
  let b6 := assign Buf (Some (snd c2)) b5 in
  Start env codec s =
    match fst c1 with
    | Some e => Done (Some e) (mkState b5 (trace s ++ evs ++ [GstStart Pbk]))
    | None =>
        match fst c2 with
        | Some e =>
            Done (Some e) (mkState b6 (trace s ++ evs ++ [GstStart Pbk; GstStart Buf]))
        | None =>
            Done None (mkState b6 (trace s ++ evs ++ [GstStart Pbk; GstStart Buf; Go]))
        end
    end.
Proof.
  intros H1 H2 H3 HP HR fifo evs d c1 c2 b4 b5 b6. unfold Start.
  pose proof (setupDevices_run env s) as HS. cbv zeta in HS.
  rewrite H1, H2, H3 in HS. rewrite (or_return_ok _ _ _ _ HS). clear HS.
  match goal with |- context [bind (buildPlaybackPipeline codec) _ ?st] =>
    pose proof (buildPlaybackPipeline_congr codec s st p logged
                  eq_refl eq_refl eq_refl eq_refl HP) as HP';
    pose proof (buildRecordingPipelines_congr codec s
                  (mkState (assign Pbk (Some p) (self st)) (trace st ++ logged))
                  (buf0, rec0) s0 eq_refl eq_refl HR) as HR'
  end.
  rewrite (bind_Done _ _ _ _ _ HP'). clear HP'.
  unfold bind at 1. unfold modify at 1.
  simpl self in *. simpl trace in *.
  rewrite (bind_Done _ _ _ _ _ HR'). clear HR'.
  unfold bind at 1 2. unfold modify at 1 2. simpl fst. simpl snd.
  simpl self. simpl trace.
  unfold or_return at 1. unfold bind at 1.
  erewrite pipelineStart_Some by (simpl; reflexivity).
  fold c1. simpl self. simpl trace.
  destruct (fst c1) as [e1|].
  { unfold ret. subst evs. rewrite <- !app_assoc. reflexivity. }
  unfold or_return at 1. unfold bind at 1.
  erewrite pipelineStart_Some by (simpl; reflexivity).
  fold c2. simpl self. simpl trace.
  destruct (fst c2) as [e2|].
  { unfold ret. subst evs. rewrite <- !app_assoc. reflexivity. }
  unfold bind, emit, ret. simpl. subst evs. rewrite <- !app_assoc. reflexivity.
Qed.

(** A pipeline that [buildRecordingPipelines] returns is new. *)
Lemma buildRecordingPipelines_new (codec : Codec) s buf0 rec0 s0 :
  buildRecordingPipelines codec s = Done (buf0, rec0) s0 ->
  gst.started buf0 = false /\ gst.closed buf0 = false /\
  gst.started rec0 = false /\ gst.closed rec0 = false.
Proof.
  unfold buildRecordingPipelines, bind, gets, ret. simpl.
  intros [= <- <- _]. repeat split.
Qed.

(** What [gst.Start] leaves of a pipeline. *)
Lemma gst_Start_ok spawn p :
  fst (gst.Start spawn p) = None ->
  gst.started (snd (gst.Start spawn p)) = true /\
  gst.stages (snd (gst.Start spawn p)) = gst.stages p /\
  gst.closed (snd (gst.Start spawn p)) = gst.closed p.
Proof. unfold gst.Start. destruct (spawn p); [discriminate|]. auto. Qed.

Lemma gst_Start_err spawn p e :
  fst (gst.Start spawn p) = Some e -> snd (gst.Start spawn p) = p.
Proof. unfold gst.Start. destruct (spawn p); [reflexivity | discriminate]. Qed.

Lemma gst_Start_fst spawn p : fst (gst.Start spawn p) = spawn p.
Proof. unfold gst.Start. destruct (spawn p); reflexivity. Qed.

(** X5.  A [Start] in which every device call and the two process starts
    succeed returns nil after, in this order: the three DeviceManager
    calls, the warning of the playback build if any, the start of the
    playback pipeline, the start of the network-buffer pipeline, and the
    launch of the goroutine.  Both started pipelines are stored with the
    stages that were built; the recorder pipeline is stored as built, not
    started; the sink and the source are provisioned and "virtmic" is the
    default source. *)
Theorem Start_success env (codec : Codec) s p logged buf0 rec0 s0 :
  pa_AddSink env "kvdi" "kvdi-playback" = None ->
  pa_AddSource env "virtmic" "kvdi-microphone"
    ("/run/user/" +:+ userID (self s) +:+ "/pulse/mic.fifo") "s16le" 1 16000 = None ->
  pa_SetDefaultSource env "virtmic" = None ->
  buildPlaybackPipeline codec s = Done p (mkState (self s) (trace s ++ logged)) ->
  buildRecordingPipelines codec s = Done (buf0, rec0) s0 ->
  gst_spawn env p = None ->
  gst_spawn env buf0 = None ->
  exists s' pbk buf,
    Start env codec s = Done None s' /\
    trace s' =
      trace s ++
      [PaAddSink "kvdi" "kvdi-playback";
       PaAddSource "virtmic" "kvdi-microphone"
         ("/run/user/" +:+ userID (self s) +:+ "/pulse/mic.fifo") "s16le" 1 16000;
       PaSetDefaultSource "virtmic"] ++ logged ++
      [GstStart Pbk; GstStart Buf; Go] /\
    field Pbk (self s') = Some pbk /\
    gst.started pbk = true /\ gst.stages pbk = gst.stages p /\
    field Buf (self s') = Some buf /\
    gst.started buf = true /\ gst.stages buf = gst.stages buf0 /\
    field Rec (self s') = Some rec0 /\ gst.started rec0 = false /\
    pa.devices (deviceManager (self s')) =
      pa.devices (deviceManager (self s)) ++ ["kvdi"; "virtmic"] /\
    pa.defaultSource (deviceManager (self s')) = Some "virtmic".
Proof.
  intros H1 H2 H3 HP HR Sp Sb.
  rewrite (Start_run env codec s p logged buf0 rec0 s0 H1 H2 H3 HP HR).
  rewrite !gst_Start_fst, Sp, Sb.
  destruct (gst_Start_ok (gst_spawn env) p) as (Hs1 & Hst1 & _);
    [rewrite gst_Start_fst; exact Sp|].
  destruct (gst_Start_ok (gst_spawn env) buf0) as (Hs2 & Hst2 & _);
    [rewrite gst_Start_fst; exact Sb|].
  destruct (buildRecordingPipelines_new codec s buf0 rec0 s0 HR) as (_ & _ & Hr & _).
  do 3 eexists. split; [reflexivity|]. simpl.
  rewrite <- !app_assoc. simpl. auto 15.
Qed.

(** X6.  When the playback process cannot be started, [Start] returns
    that error straight after the attempt: the network-buffer pipeline is
    not started and no goroutine is launched.  The three pipelines stay
    stored as built and the devices stay provisioned ([Destroy] is not
    called): cleaning up is left to the caller. *)
Theorem Start_playback_start_fails env (codec : Codec) s p logged buf0 rec0 s0 e :
  pa_AddSink env "kvdi" "kvdi-playback" = None ->
  pa_AddSource env "virtmic" "kvdi-microphone"
    ("/run/user/" +:+ userID (self s) +:+ "/pulse/mic.fifo") "s16le" 1 16000 = None ->
  pa_SetDefaultSource env "virtmic" = None ->
  buildPlaybackPipeline codec s = Done p (mkState (self s) (trace s ++ logged)) ->
  buildRecordingPipelines codec s = Done (buf0, rec0) s0 ->
  gst_spawn env p = Some e ->
  exists s',
    Start env codec s = Done (Some e) s' /\
    trace s' =
      trace s ++
      [PaAddSink "kvdi" "kvdi-playback";
       PaAddSource "virtmic" "kvdi-microphone"
         ("/run/user/" +:+ userID (self s) +:+ "/pulse/mic.fifo") "s16le" 1 16000;
       PaSetDefaultSource "virtmic"] ++ logged ++ [GstStart Pbk] /\
    field Pbk (self s') = Some p /\
    field Buf (self s') = Some buf0 /\
    field Rec (self s') = Some rec0 /\
    pa.devices (deviceManager (self s')) =
      pa.devices (deviceManager (self s)) ++ ["kvdi"; "virtmic"].
Proof.
  intros H1 H2 H3 HP HR Sp.
  rewrite (Start_run env codec s p logged buf0 rec0 s0 H1 H2 H3 HP HR).
  rewrite gst_Start_fst, Sp.
  rewrite (gst_Start_err (gst_spawn env) p e) by (rewrite gst_Start_fst; exact Sp).
  eexists. split; [reflexivity|]. simpl.
  rewrite <- !app_assoc. simpl. auto 10.
Qed.

(** X7.  When the playback process starts and the network-buffer process
    cannot be started, [Start] returns that error; no goroutine is
    launched, and the playback pipeline is left started: [Start] does not
    close it, nor release the devices. *)
Theorem Start_buffer_start_fails env (codec : Codec) s p logged buf0 rec0 s0 e :
  pa_AddSink env "kvdi" "kvdi-playback" = None ->
  pa_AddSource env "virtmic" "kvdi-microphone"
    ("/run/user/" +:+ userID (self s) +:+ "/pulse/mic.fifo") "s16le" 1 16000 = None ->
  pa_SetDefaultSource env "virtmic" = None ->
  buildPlaybackPipeline codec s = Done p (mkState (self s) (trace s ++ logged)) ->
  buildRecordingPipelines codec s = Done (buf0, rec0) s0 ->
  gst_spawn env p = None ->
  gst_spawn env buf0 = Some e ->
  exists s' pbk,
    Start env codec s = Done (Some e) s' /\
    trace s' =
      trace s ++
      [PaAddSink "kvdi" "kvdi-playback";
       PaAddSource "virtmic" "kvdi-microphone"
         ("/run/user/" +:+ userID (self s) +:+ "/pulse/mic.fifo") "s16le" 1 16000;
       PaSetDefaultSource "virtmic"] ++ logged ++ [GstStart Pbk; GstStart Buf] /\
    field Pbk (self s') = Some pbk /\
    gst.started pbk = true /\ gst.closed pbk = gst.closed p /\
    field Buf (self s') = Some buf0 /\
    field Rec (self s') = Some rec0 /\
    pa.devices (deviceManager (self s')) =
      pa.devices (deviceManager (self s)) ++ ["kvdi"; "virtmic"].
Proof.
  intros H1 H2 H3 HP HR Sp Sb.
  rewrite (Start_run env codec s p logged buf0 rec0 s0 H1 H2 H3 HP HR).
  rewrite !gst_Start_fst, Sp, Sb.
  destruct (gst_Start_ok (gst_spawn env) p) as (Hs1 & _ & Hc1);
    [rewrite gst_Start_fst; exact Sp|].
  rewrite (gst_Start_err (gst_spawn env) buf0 e) by (rewrite gst_Start_fst; exact Sb).
  do 2 eexists. split; [reflexivity|]. simpl.
  rewrite <- !app_assoc. simpl. auto 10.
Qed.

(** X8.  [Start] then [Close]: after a [Start] that returned nil, a
    [Close] in which every process can be terminated returns nil, having
    closed playback, network-buffer and recorder in that order and then
    destroyed the devices; afterwards the Buffer reports closed and the
    DeviceManager holds no device. *)
Theorem Start_then_Close env env' (codec : Codec) s s1 :
  Start env codec s = Done None s1 ->
  (forall p, gst_kill env' p = None) ->
  exists s2,
    Close env' s1 = Done None s2 /\
    trace s2 = trace s1 ++ [GstClose Pbk; GstClose Buf; GstClose Rec; PaDestroy] /\
    IsClosed s2 = Done true s2 /\
    closed (self s2) = true /\
    pa.devices (deviceManager (self s2)) = [] /\
    pa.defaultSource (deviceManager (self s2)) = None.
Proof.
  intros HS Hkill.
  destruct (Start_ok_open env codec s s1 HS) as (pbk & buf & rec & Hp & Hb & Hr & Hopen).
  assert (forall p, fst (gst.Close (gst_kill env') p) = None) as Hk.
  { intros p. unfold gst.Close. destruct (gst.closed p); [reflexivity|].
    rewrite Hkill. reflexivity. }
  pose proof (Close_run env' s1 pbk buf rec Hp Hb Hr Hopen) as HC.
  cbv zeta in HC. rewrite !Hk in HC.
  eexists. split; [exact HC|]. split; [reflexivity|].
  split; [|repeat split].
  exact (Close_ok_closed env' s1 pbk buf rec _ Hp Hb Hr HC).
Qed.

(** The goroutine's call of [waitForProcPort], taken to tick [n] by [n]
    quiet reads. *)
Lemma Start_func1_wait env s pid (n fuel : nat) :
  let path := "/proc/" +:+ gostd.FormatInt10 pid +:+ "/net/tcp" in
  (forall k, (k < n)%nat -> exists b,
      proc_read env path k = Contents b /\ gostd.Contains b "232C" = false) ->
  waitForProcPort env (n + fuel) "tcp" pid 9004 5 1 s =
    pollTicks env "tcp" pid 9004 5 1000000000 "232C" fuel n 0
      (mkState (self s)
         (trace s ++ concat (replicate n [Tick 1000000000; ProcOpen path]))).
Proof.
  intros path Hquiet.
  pose proof (waitForProcPort_skip env "tcp" pid 9004 5 1 s n) as H.
  cbv zeta in H.
  change (gostd.ToUpper (gostd.FormatInt16 9004)) with "232C" in H.
  change (1000000000 * 1) with 1000000000 in H.
  apply H; [lia | exact Hquiet | right; discriminate].
Qed.

(** X9.  The goroutine of [Start] starts the recorder pipeline as soon as
    the network-buffer process is seen listening: when the first [n] reads
    of /proc/<pid>/net/tcp do not list port 232C and read [n] does, it
    makes [n + 1] checks one second apart and then starts the recorder
    pipeline.  A failure of that start is only logged. *)
Theorem Start_func1_starts_recorder env (fuel : nat) s buf rec (n : nat) body :
  field Buf (self s) = Some buf ->
  field Rec (self s) = Some rec ->
  let path := "/proc/" +:+ gostd.FormatInt10 (gst_pid env buf) +:+ "/net/tcp" in
  (forall k, (k < n)%nat -> exists b,
      proc_read env path k = Contents b /\ gostd.Contains b "232C" = false) ->
  proc_read env path n = Contents body ->
  gostd.Contains body "232C" = true ->
  (n < fuel)%nat ->
  exists s' rec',
    Start_func1 env fuel s = Done tt s' /\
    trace s' =
      trace s ++ concat (replicate (S n) [Tick 1000000000; ProcOpen path]) ++
      GstStart Rec ::
      match gst_spawn env rec with
      | Some e => [LogError (logger (self s)) e "Failed to start recorder pipeline."]
      | None => []
      end /\
    field Rec (self s') = Some rec' /\
    gst.started rec' =
      match gst_spawn env rec with Some _ => gst.started rec | None => true end /\
    field Pbk (self s') = field Pbk (self s) /\
    field Buf (self s') = field Buf (self s).
Proof.
  intros Hb Hr path Hquiet Hread Hfound Hfuel. subst path.
  unfold Start_func1, pipelinePid.
  unfold bind at 1 2. rewrite (deref_Some _ _ _ Hb). unfold ret at 1.
  replace fuel with (n + S (fuel - S n))%nat by lia.
  unfold bind at 1. rewrite (Start_func1_wait env s (gst_pid env buf) n _ Hquiet).
  cbn [pollTicks]. unfold bind at 1 2. unfold emit at 1 2. simpl self. simpl trace.
  change ("/net/" +:+ "tcp") with "/net/tcp".
  rewrite Hread, Hfound. unfold ret at 1.
  rewrite <- !app_assoc. simpl app.
  rewrite (concat_replicate_snoc [Tick 1000000000; ProcOpen _] n).
  unfold bind at 1.
  erewrite pipelineStart_Some by (simpl; exact Hr).
  rewrite gst_Start_fst. simpl self. simpl trace.
  unfold gst.Start. destruct (gst_spawn env rec) as [e|].
  - unfold bind, gets, emit. simpl. do 2 eexists. split; [reflexivity|].
    simpl. rewrite <- !app_assoc. simpl. auto.
  - unfold ret. do 2 eexists. split; [reflexivity|].
    simpl. rewrite <- !app_assoc. simpl. auto.
Qed.

(** X10.  When a read of the /proc file fails, the goroutine of [Start]
    logs the error and ends: the recorder pipeline is not started and the
    Buffer is left as it was. *)
Theorem Start_func1_read_error env (fuel : nat) s buf (n : nat) err :
  field Buf (self s) = Some buf ->
  let path := "/proc/" +:+ gostd.FormatInt10 (gst_pid env buf) +:+ "/net/tcp" in
  (forall k, (k < n)%nat -> exists b,
      proc_read env path k = Contents b /\ gostd.Contains b "232C" = false) ->
  proc_read env path n = OpenFails err \/
  proc_read env path n = ReadFails err \/
  proc_read env path n = CloseFails err ->
  (n < fuel)%nat ->
  Start_func1 env fuel s =
    Done tt
      (mkState (self s)
         (trace s ++ concat (replicate (S n) [Tick 1000000000; ProcOpen path]) ++
          [LogError (logger (self s)) err "Buffer port did not become available"])).
Proof.
  intros Hb path Hquiet Hfail Hfuel. subst path.
  unfold Start_func1, pipelinePid.
  unfold bind at 1 2. rewrite (deref_Some _ _ _ Hb). unfold ret at 1.
  replace fuel with (n + S (fuel - S n))%nat by lia.
  unfold bind at 1. rewrite (Start_func1_wait env s (gst_pid env buf) n _ Hquiet).
  cbn [pollTicks]. unfold bind at 1 2. unfold emit at 1 2. simpl self. simpl trace.
  change ("/net/" +:+ "tcp") with "/net/tcp".
  rewrite <- !app_assoc. simpl app.
  rewrite (concat_replicate_snoc [Tick 1000000000; ProcOpen _] n).
  destruct Hfail as [-> | [-> | ->]];
    unfold ret, bind, gets, emit; simpl; rewrite <- !app_assoc; reflexivity.
Qed.

(** The recording pipelines are always built. *)
Lemma buildRecordingPipelines_Done (codec : Codec) s :
  exists buf0 rec0, buildRecordingPipelines codec s = Done (buf0, rec0) s.
Proof.
  unfold buildRecordingPipelines, bind, gets, ret. simpl.
  do 2 eexists. reflexivity.
Qed.

(** X26.  A [Start] that failed at a pipeline start can be cleaned up with
    [Close]: the devices were provisioned and the three pipelines are
    stored, so a [Close] in which every process can be terminated closes
    the three pipelines, destroys the devices and leaves the Buffer
    closed. *)
Theorem Close_after_failed_pipeline_start env env' (codec : Codec) s e s1 :
  pa_AddSink env "kvdi" "kvdi-playback" = None ->
  pa_AddSource env "virtmic" "kvdi-microphone"
    ("/run/user/" +:+ userID (self s) +:+ "/pulse/mic.fifo") "s16le" 1 16000 = None ->
  pa_SetDefaultSource env "virtmic" = None ->
  Start env codec s = Done (Some e) s1 ->
  (forall p, gst_kill env' p = None) ->
  exists s2,
    Close env' s1 = Done None s2 /\
    trace s2 = trace s1 ++ [GstClose Pbk; GstClose Buf; GstClose Rec; PaDestroy] /\
    IsClosed s2 = Done true s2 /\
    pa.devices (deviceManager (self s2)) = [].
Proof.
  intros H1 H2 H3 HS Hkill.
  destruct (buildPlaybackPipeline_new codec s) as (p & logged & HP & Hc).
  destruct (buildRecordingPipelines_Done codec s) as (buf0 & rec0 & HR).
  rewrite (Start_run env codec s p logged buf0 rec0 s H1 H2 H3 HP HR) in HS.
  assert (exists pbk buf rec,
             field Pbk (self s1) = Some pbk /\ field Buf (self s1) = Some buf /\
             field Rec (self s1) = Some rec /\ gst.closed pbk = false)
    as (pbk & buf & rec & Hp & Hb & Hr & Hpc).
  { destruct (fst (gst.Start (gst_spawn env) p)); [|destruct (fst (gst.Start _ buf0))];
      try discriminate; injection HS as _ <-; simpl; do 3 eexists;
      (repeat split; [rewrite gst_Start_closed; exact Hc]). }
  assert (IsClosed s1 = Done false s1) as Hopen.
  { rewrite (IsClosed_run s1 pbk buf rec Hp Hb Hr). unfold gst.IsClosed.
    rewrite Hpc. reflexivity. }
  assert (forall q, fst (gst.Close (gst_kill env') q) = None) as Hk.
  { intros q. unfold gst.Close. destruct (gst.closed q); [reflexivity|].
    rewrite Hkill. reflexivity. }
  pose proof (Close_run env' s1 pbk buf rec Hp Hb Hr Hopen) as HC.
  cbv zeta in HC. rewrite !Hk in HC.
  eexists. split; [exact HC|]. split; [reflexivity|].
  split; [|reflexivity].
  exact (Close_ok_closed env' s1 pbk buf rec _ Hp Hb Hr HC).
Qed.

End lifecycle_properties.

(** ** Properties of the configuration and diagnostic methods *)

Section diagnostic_properties.
Import audio audio_diag.

Implicit Types (s : State) (env : Env).

(** X11.  [SetChannels] and [SetSampleRate] decide the source of the
    playback pipeline that is built afterwards, in whichever order they are
    called: its first stage captures "kvdi.monitor" with that channel count
    and sample rate.  They leave the three pipeline fields alone, so calling
    them on a started Buffer does not reach the pipelines already built. *)
Theorem SetChannels_SetSampleRate_playback (c r : Z) (codec : Codec) s :
  exists p s',
    (_ <- SetChannels c ;; _ <- SetSampleRate r ;; buildPlaybackPipeline codec) s
      = Done p s' /\
    (_ <- SetSampleRate r ;; _ <- SetChannels c ;; buildPlaybackPipeline codec) s
      = Done p s' /\
    head (gst.stages p) = Some (gst.PulseSrc (userID (self s)) "kvdi.monitor" c r) /\
    (forall sl, field sl (self s') = field sl (self s)).
Proof.
  unfold SetChannels, SetSampleRate, buildPlaybackPipeline.
  unfold bind, modify, gets, ret, emit. simpl.
  destruct (String.eqb codec CodecVorbis); simpl;
    [do 2 eexists; repeat split; destruct sl; reflexivity|].
  destruct (String.eqb codec CodecOpus); simpl;
    [do 2 eexists; repeat split; destruct sl; reflexivity|].
  destruct (String.eqb codec CodecMP3); simpl;
    do 2 eexists; repeat split; destruct sl; reflexivity.
Qed.

Lemma pipelineError_Some perr s sl p :
  field sl (self s) = Some p -> pipelineError perr sl s = Done (perr p) s.
Proof.
  intros H. unfold pipelineError, bind. rewrite (deref_Some _ _ _ H). reflexivity.
Qed.

Lemma pipelineStderr_Some pstderr s sl p :
  field sl (self s) = Some p -> pipelineStderr pstderr sl s = Done (pstderr p) s.
Proof.
  intros H. unfold pipelineStderr, bind. rewrite (deref_Some _ _ _ H). reflexivity.
Qed.

(** X12.  On a started Buffer [Errors] returns the nil slice exactly when
    none of the three pipelines has an error; otherwise it returns the
    errors of the failing pipelines in the order playback, network-buffer,
    recorder: between one and three of them.  The Buffer is untouched. *)
Theorem Errors_collects perr s pbk buf rec :
  field Pbk (self s) = Some pbk ->
  field Buf (self s) = Some buf ->
  field Rec (self s) = Some rec ->
  exists r,
    Errors perr s = Done r s /\
    (r = None <-> perr pbk = None /\ perr buf = None /\ perr rec = None) /\
    (forall errs, r = Some errs ->
       errs = omap perr [pbk; buf; rec] /\ (1 <= length errs <= 3)%nat).
Proof.
  intros Hp Hb Hr. unfold Errors.
  rewrite (bind_Done _ _ _ _ _ (pipelineError_Some perr s Pbk pbk Hp)). cbv beta zeta.
  rewrite (bind_Done _ _ _ _ _ (pipelineError_Some perr s Buf buf Hb)). cbv beta zeta.
  rewrite (bind_Done _ _ _ _ _ (pipelineError_Some perr s Rec rec Hr)). cbv beta zeta.
  cbn [omap list_omap].
  destruct (perr pbk) as [e1|], (perr buf) as [e2|], (perr rec) as [e3|]; simpl;
    eexists; (split; [reflexivity|]);
    (split;
     [ split;
       [ intros H; try discriminate H; auto
       | intros (H1 & H2 & H3); try discriminate; reflexivity ]
     | intros errs H;
       first [ discriminate H
             | injection H as <-; simpl; split; [reflexivity | lia] ] ]).
Qed.

Lemma string_length_append (a b : string) :
  String.length (a +:+ b) = (String.length a + String.length b)%nat.
Proof. induction a as [|c a IH]; simpl; [reflexivity | rewrite IH; reflexivity]. Qed.

(** X13.  On a started Buffer [Stderr] is the three captured texts in the
    order playback, network-buffer, recorder with " : " between them.  Both
    separators are always there, so the result is never empty: three empty
    texts give " :  : ". *)
Theorem Stderr_joins pstderr s pbk buf rec :
  field Pbk (self s) = Some pbk ->
  field Buf (self s) = Some buf ->
  field Rec (self s) = Some rec ->
  exists r,
    Stderr pstderr s = Done r s /\
    r = pstderr pbk +:+ " : " +:+ pstderr buf +:+ " : " +:+ pstderr rec /\
    String.length r =
      (String.length (pstderr pbk) + String.length (pstderr buf)
       + String.length (pstderr rec) + 6)%nat.
Proof.
  intros Hp Hb Hr. unfold Stderr.
  rewrite (bind_Done _ _ _ _ _ (pipelineStderr_Some pstderr s Pbk pbk Hp)).
  rewrite (bind_Done _ _ _ _ _ (pipelineStderr_Some pstderr s Buf buf Hb)).
  rewrite (bind_Done _ _ _ _ _ (pipelineStderr_Some pstderr s Rec rec Hr)).
  eexists. split; [reflexivity|]. split; [reflexivity|].
  unfold gostd.Join. rewrite !string_length_append. simpl. lia.
Qed.

End diagnostic_properties.

(** ** Further properties of the creation-spec annotation *)

Section annotation_properties_more.
Import k8sutil.

Variable Object : Type.
Variable json_Marshal : Object -> list Byte.byte + Error.
Variable sha256_Sum : list Byte.byte -> list Byte.byte.
Variable key : string.

Lemma hexdigit_inj_nat (a b : nat) :
  (a < 16)%nat -> (b < 16)%nat ->
  hexdigit (N.of_nat a) = hexdigit (N.of_nat b) -> a = b.
Proof.
  intros Ha Hb.
  do 16 (destruct a as [|a];
         [do 16 (destruct b as [|b];
                 [intros H; vm_compute in H; first [reflexivity | discriminate H]|]);
          lia|]).
  lia.
Qed.

Lemma hexdigit_inj (n m : N) :
  (n < 16)%N -> (m < 16)%N -> hexdigit n = hexdigit m -> n = m.
Proof.
  intros Hn Hm H. apply N2Nat.inj.
  apply hexdigit_inj_nat; [lia | lia |]. rewrite !N2Nat.id. exact H.
Qed.

Lemma Byte_to_N_inj (x y : Byte.byte) : Byte.to_N x = Byte.to_N y -> x = y.
Proof.
  intros H. assert (Some x = Some y) as [= ->]; [|reflexivity].
  rewrite <- (Byte.of_to_N x), <- (Byte.of_to_N y), H. reflexivity.
Qed.

Lemma Sprintf_x_inj (b1 b2 : list Byte.byte) :
  Sprintf_x b1 = Sprintf_x b2 -> b1 = b2.
Proof.
  revert b2. induction b1 as [|x b1 IH]; intros [|y b2]; simpl;
    try discriminate; [reflexivity|].
  intros [= Hhi Hlo Hrest].
  pose proof (Byte.to_N_bounded x) as Bx.
  pose proof (Byte.to_N_bounded y) as By.
  apply hexdigit_inj in Hhi;
    [| apply N.Div0.div_lt_upper_bound; lia | apply N.Div0.div_lt_upper_bound; lia].
  apply hexdigit_inj in Hlo; [| apply N.mod_lt; lia | apply N.mod_lt; lia].
  f_equal; [|apply IH; exact Hrest].
  apply Byte_to_N_inj.
  rewrite (N.div_mod (Byte.to_N x) 16), (N.div_mod (Byte.to_N y) 16) by lia.
  rewrite Hhi, Hlo. reflexivity.
Qed.

(** What [CreationSpecsEqual] computes: both arguments carry the
    annotation, with the same value. *)
Lemma CreationSpecsEqual_true m1 m2 :
  CreationSpecsEqual key m1 m2 = true <->
  exists v, index (GetAnnotations m1) key = Some v /\
            index (GetAnnotations m2) key = Some v.
Proof.
  unfold CreationSpecsEqual. cbv zeta.
  destruct (index (GetAnnotations m1) key) as [v1|].
  - destruct (index (GetAnnotations m2) key) as [v2|].
    + rewrite String.eqb_eq. split.
      * intros ->. eauto.
      * intros (v & [= <-] & [= <-]). reflexivity.
    + split; [discriminate | intros (v & _ & [=])].
  - split; [discriminate | intros (v & [=] & _)].
Qed.


(** X15.  The [%x] rendering of a digest loses nothing: it has two
    characters per byte, and two byte slices with the same rendering are
    the same slice.  So comparing annotations compares digests. *)
Theorem Sprintf_x_faithful (b1 b2 : list Byte.byte) :
  String.length (Sprintf_x b1) = (2 * length b1)%nat /\
  (Sprintf_x b1 = Sprintf_x b2 -> b1 = b2).
Proof.
  split; [|apply Sprintf_x_inj].
  induction b1 as [|x b1 IH]; simpl; [reflexivity|]. rewrite IH. lia.
Qed.

(** X17.  [CreationSpecsEqual] is symmetric and transitive, and it holds
    of a metadata value and itself exactly when that value carries the
    creation-spec annotation: metadata without it (a nil map among them)
    is not equal to itself. *)
Theorem CreationSpecsEqual_partial_equivalence :
  (forall m1 m2, CreationSpecsEqual key m1 m2 = CreationSpecsEqual key m2 m1) /\
  (forall m1 m2 m3,
      CreationSpecsEqual key m1 m2 = true ->
      CreationSpecsEqual key m2 m3 = true ->
      CreationSpecsEqual key m1 m3 = true) /\
  (forall m, CreationSpecsEqual key m m = true <->
             is_Some (index (GetAnnotations m) key)).
Proof.
  split; [|split].
  - intros m1 m2. unfold CreationSpecsEqual. cbv zeta.
    destruct (index (GetAnnotations m1) key), (index (GetAnnotations m2) key);
      try reflexivity.
    apply String.eqb_sym.
  - intros m1 m2 m3. rewrite !CreationSpecsEqual_true.
    intros (v & H1 & H2) (w & H2' & H3). exists v.
    rewrite H2 in H2'. injection H2' as <-. auto.
  - intros m. rewrite CreationSpecsEqual_true. split.
    + intros (v & H & _). eauto.
    + intros [v H]. eauto.
Qed.


End annotation_properties_more.

(** ** The annotation set through the pointer *)

Section heap_properties.
Import k8sutil k8sutil_heap.

Variable Rest : Type.
Variable json_Marshal : Object Rest -> list Byte.byte + Error.
Variable sha256_Sum : list Byte.byte -> list Byte.byte.
Variable key : string.

Implicit Types (h : Heap Rest) (p q : MetaPtr) (m : ObjectMeta).




(** A call through metadata that is no part of the object leaves the
    object as it was. *)
Lemma detached_keeps_object (i : nat) h r h1 :
  k8sutil_heap.SetCreationSpecAnnotation json_Marshal sha256_Sum key (Detached i) h
    = Some (r, h1) ->
  object h1 = object h.
Proof.
  unfold k8sutil_heap.SetCreationSpecAnnotation.
  destruct (load (Detached i) h); [|discriminate].
  destruct (k8sutil.SetCreationSpecAnnotation _ _ _ _ _) as [[err|] m'];
    intros [= _ <-]; reflexivity.
Qed.


(** X16.  On metadata that shares nothing with the object,
    [SetCreationSpecAnnotation] is idempotent: a second call with the same
    object returns what the first returned and leaves everything as the
    first call left it. *)
Theorem SetCreationSpecAnnotation_idempotent_detached (i : nat) h r h1 :
  k8sutil_heap.SetCreationSpecAnnotation json_Marshal sha256_Sum key (Detached i) h
    = Some (r, h1) ->
  k8sutil_heap.SetCreationSpecAnnotation json_Marshal sha256_Sum key (Detached i) h1
    = Some (r, h1).
Proof.
  unfold k8sutil_heap.SetCreationSpecAnnotation.
  destruct (load (Detached i) h) as [meta|] eqn:Hl; [|discriminate].
  rewrite SetCreationSpecAnnotation_run.
  destruct (json_Marshal (object h)) as [spec|err] eqn:J.
  - intros [= <- <-]. simpl load.
    rewrite list_lookup_insert_eq by exact (lookup_lt_Some _ _ _ Hl).
    rewrite SetCreationSpecAnnotation_run. simpl object. rewrite J.
    unfold SetAnnotations. simpl. rewrite insert_insert_eq.
    rewrite list_insert_insert_eq. reflexivity.
  - intros [= <- <-]. rewrite Hl, SetCreationSpecAnnotation_run, J. reflexivity.
Qed.

End heap_properties.

(** ** Properties of the pod identity helpers *)

Section pod_properties.
Import k8sutil_pod.

Variable Pod : Type.
Variable zeroPod : Pod.

(** X19.  [GetThisPodName] treats an empty POD_NAME as a missing one: it
    returns the value of the variable when that is a non-empty string, and
    otherwise the empty name with the error "No POD_NAME in the
    environment". *)
Theorem GetThisPodName_spec (environ : gmap string string) :
  (forall v, environ !! "POD_NAME" = Some v -> v <> "" ->
             GetThisPodName environ = (v, None)) /\
  (environ !! "POD_NAME" = None \/ environ !! "POD_NAME" = Some "" ->
   GetThisPodName environ =
     ("", Some (errors_New "No POD_NAME in the environment"))).
Proof.
  unfold GetThisPodName, Getenv. split.
  - intros v -> Hv. simpl. destruct (String.eqb_spec v ""); [contradiction|].
    reflexivity.
  - intros [-> | ->]; reflexivity.
Qed.

Lemma GetThisPodName_ok environ v :
  environ !! "POD_NAME" = Some v -> v <> "" -> GetThisPodName environ = (v, None).
Proof.
  unfold GetThisPodName, Getenv. intros -> Hv. simpl.
  destruct (String.eqb_spec v ""); [contradiction | reflexivity].
Qed.

Lemma GetThisPodNamespace_ok environ v :
  environ !! "POD_NAMESPACE" = Some v -> v <> "" ->
  GetThisPodNamespace environ = (v, None).
Proof.
  unfold GetThisPodNamespace, Getenv. intros -> Hv. simpl.
  destruct (String.eqb_spec v ""); [contradiction | reflexivity].
Qed.

(** X20.  [GetThisPod] asks the client only when both variables are set
    and non-empty, and then for exactly that name in that namespace; the
    pod it returns is the object the client filled, also when the client
    reports an error.  A missing POD_NAME is reported before a missing
    POD_NAMESPACE; in both cases the pod is nil and the client plays no
    part. *)
Theorem GetThisPod_spec (environ : gmap string string) (c : Client Pod) :
  (forall name ns,
      environ !! "POD_NAME" = Some name -> name <> "" ->
      environ !! "POD_NAMESPACE" = Some ns -> ns <> "" ->
      GetThisPod zeroPod environ c =
        (Some (fst (c (mkNamespacedName name ns) zeroPod)),
         snd (c (mkNamespacedName name ns) zeroPod))) /\
  (environ !! "POD_NAME" = None \/ environ !! "POD_NAME" = Some "" ->
   GetThisPod zeroPod environ c =
     (None, Some (errors_New "No POD_NAME in the environment"))) /\
  (forall name,
      environ !! "POD_NAME" = Some name -> name <> "" ->
      environ !! "POD_NAMESPACE" = None \/ environ !! "POD_NAMESPACE" = Some "" ->
      GetThisPod zeroPod environ c =
        (None, Some (errors_New "No POD_NAMESPACE in the environment"))).
Proof.
  split; [|split].
  - intros name ns Hn Hne Hs Hse. unfold GetThisPod.
    rewrite (GetThisPodName_ok _ _ Hn Hne), (GetThisPodNamespace_ok _ _ Hs Hse).
    destruct (c _ _); reflexivity.
  - intros H. unfold GetThisPod, GetThisPodName, Getenv.
    destruct H as [-> | ->]; reflexivity.
  - intros name Hn Hne H. unfold GetThisPod.
    rewrite (GetThisPodName_ok _ _ Hn Hne).
    unfold GetThisPodNamespace, Getenv. destruct H as [-> | ->]; reflexivity.
Qed.

End pod_properties.

(** ** Properties of the session-status websocket *)

Section websocket_properties.
Import api.

Implicit Types (env : WsEnv) (trace : list WsEvent).

(** [n] polls at which the desktop is read without error, is not yet
    running in phase Running, and the status is written, take the loop [n]
    ticks further. *)
Lemma wsTicks_waiting_prefix env period (n : nat) :
  (forall i pl, ws_write env i pl = None) ->
  forall (fuel k w : nat) trace,
    (forall j, (j < n)%nat ->
       snd (ws_get env (k + j)) = None /\
       (Status_Running (fst (ws_get env (k + j)))
        && String.eqb (Status_PodPhase (fst (ws_get env (k + j)))) PodRunning)%bool
         = false) ->
    wsTicks env period (n + fuel) k w trace =
    wsTicks env period fuel (k + n) (w + n)
      (trace ++
       concat (map (fun j => [WsTick period;
                              WsWrite (StatusJSON (toReturnStatus (fst (ws_get env j))))
                                      true])
                   (seq k n))).
Proof.
  intros Hw. induction n as [|n IH]; intros fuel k w trace Hq.
  - simpl. rewrite app_nil_r, !Nat.add_0_r. reflexivity.
  - destruct (Hq 0%nat ltac:(lia)) as [He Hr]. rewrite Nat.add_0_r in He, Hr.
    change (S n + fuel)%nat with (S (n + fuel)). cbn [wsTicks].
    destruct (ws_get env k) as [d err] eqn:Hg. simpl in He, Hr. subst err.
    unfold wsStatus. rewrite Hw. simpl Running. simpl PodPhase. rewrite Hr.
    rewrite IH.
    + simpl. rewrite Hg. simpl. rewrite <- !app_assoc. simpl.
      rewrite !Nat.add_succ_r. reflexivity.
    + intros j Hj. replace (S k + j)%nat with (k + S j)%nat by lia.
      apply Hq. lia.
Qed.

(** The loop only adds events. *)
Lemma wsTicks_extends env period :
  forall (fuel k w : nat) trace,
    exists rest, ws_trace (wsTicks env period fuel k w trace) = trace ++ rest.
Proof.
  induction fuel as [|fuel IH]; intros k w trace.
  - exists []. simpl. rewrite app_nil_r. reflexivity.
  - cbn [wsTicks]. destruct (ws_get env k) as [d [err|]].
    + destruct (ws_write env w (ErrorJSON err)).
      { eexists. simpl. rewrite <- app_assoc. reflexivity. }
      destruct (ws_not_found env err).
      { eexists. simpl. rewrite <- app_assoc. reflexivity. }
      unfold wsStatus. destruct (ws_write env (S w) _).
      { eexists. simpl. rewrite <- !app_assoc. reflexivity. }
      destruct (_ && _)%bool.
      { eexists. simpl. rewrite <- !app_assoc. reflexivity. }
      destruct (IH (S k) (S (S w))
                  (((trace ++ [WsTick period]) ++ [WsWrite (ErrorJSON err) true])
                     ++ [WsWrite (StatusJSON (toReturnStatus d)) true])) as [rest ->].
      eexists. rewrite <- !app_assoc. reflexivity.
    + unfold wsStatus. destruct (ws_write env w _).
      { eexists. simpl. rewrite <- !app_assoc. reflexivity. }
      destruct (_ && _)%bool.
      { eexists. simpl. rewrite <- !app_assoc. reflexivity. }
      destruct (IH (S k) (S w)
                  ((trace ++ [WsTick period])
                     ++ [WsWrite (StatusJSON (toReturnStatus d)) true])) as [rest ->].
      eexists. rewrite <- !app_assoc. reflexivity.
Qed.

(** A tick that is run starts with the tick event. *)
Lemma wsTicks_extends_tick env period :
  forall (fuel k w : nat) trace,
    exists rest,
      ws_trace (wsTicks env period (S fuel) k w trace) = trace ++ WsTick period :: rest.
Proof.
  intros fuel k w trace. cbn [wsTicks].
  destruct (ws_get env k) as [d [err|]].
  - destruct (ws_write env w (ErrorJSON err)).
    { eexists. simpl. rewrite <- app_assoc. reflexivity. }
    destruct (ws_not_found env err).
    { eexists. simpl. rewrite <- app_assoc. reflexivity. }
    unfold wsStatus. destruct (ws_write env (S w) _).
    { eexists. simpl. rewrite <- !app_assoc. reflexivity. }
    destruct (_ && _)%bool.
    { eexists. simpl. rewrite <- !app_assoc. reflexivity. }
    match goal with |- context [wsTicks env ?p ?f ?k ?w ?t] =>
      destruct (wsTicks_extends env p f k w t) as [r ->] end.
    eexists. rewrite <- !app_assoc. reflexivity.
  - unfold wsStatus. destruct (ws_write env w _).
    { eexists. simpl. rewrite <- !app_assoc. reflexivity. }
    destruct (_ && _)%bool.
    { eexists. simpl. rewrite <- !app_assoc. reflexivity. }
    match goal with |- context [wsTicks env ?p ?f ?k ?w ?t] =>
      destruct (wsTicks_extends env p f k w t) as [r ->] end.
    eexists. rewrite <- !app_assoc. reflexivity.
Qed.

(** X21.  The handler ends at the first poll that finds the desktop
    running with pod phase Running: when the first [n] polls find it not
    yet so and poll [n] does, it has written one status per poll, [n + 1]
    in all, two seconds apart, and then closes the connection. *)
Theorem websocket_returns_when_running env (fuel n : nat) :
  (forall i pl, ws_write env i pl = None) ->
  (forall j, (j < n)%nat ->
     snd (ws_get env j) = None /\
     (Status_Running (fst (ws_get env j))
      && String.eqb (Status_PodPhase (fst (ws_get env j))) PodRunning)%bool = false) ->
  snd (ws_get env n) = None ->
  Status_Running (fst (ws_get env n)) = true ->
  Status_PodPhase (fst (ws_get env n)) = PodRunning ->
  (n < fuel)%nat ->
  GetDesktopSessionStatusWebsocket env fuel =
    WsReturned
      (concat (map (fun j => [WsTick 2000000000;
                              WsWrite (StatusJSON (toReturnStatus (fst (ws_get env j))))
                                      true])
                   (seq 0 (S n)))
       ++ [WsClose]).
Proof.
  intros Hw Hq He Hrun Hphase Hfuel. unfold GetDesktopSessionStatusWebsocket.
  change (2 * gostd.Second) with 2000000000.
  replace fuel with (n + S (fuel - S n))%nat by lia.
  rewrite (wsTicks_waiting_prefix env 2000000000 n Hw _ 0 0 [] Hq).
  rewrite !Nat.add_0_l, app_nil_l.
  cbn [wsTicks]. destruct (ws_get env n) as [d err] eqn:Hg.
  simpl in He, Hrun, Hphase. subst err.
  unfold wsStatus. rewrite Hw. simpl Running. simpl PodPhase.
  rewrite Hrun, Hphase, String.eqb_refl. cbn [andb].
  rewrite seq_S, map_app, concat_app. simpl. rewrite Hg. simpl.
  rewrite <- !app_assoc. reflexivity.
Qed.

(** X22.  When a poll finds that the desktop does not exist, the handler
    writes that error and ends: no status is written at that poll and the
    connection is closed. *)
Theorem websocket_not_found_ends env (fuel n : nat) d err :
  (forall i pl, ws_write env i pl = None) ->
  (forall j, (j < n)%nat ->
     snd (ws_get env j) = None /\
     (Status_Running (fst (ws_get env j))
      && String.eqb (Status_PodPhase (fst (ws_get env j))) PodRunning)%bool = false) ->
  ws_get env n = (d, Some err) ->
  ws_not_found env err = true ->
  (n < fuel)%nat ->
  GetDesktopSessionStatusWebsocket env fuel =
    WsReturned
      (concat (map (fun j => [WsTick 2000000000;
                              WsWrite (StatusJSON (toReturnStatus (fst (ws_get env j))))
                                      true])
                   (seq 0 n))
       ++ [WsTick 2000000000; WsWrite (ErrorJSON err) true; WsClose]).
Proof.
  intros Hw Hq Hg Hnf Hfuel. unfold GetDesktopSessionStatusWebsocket.
  change (2 * gostd.Second) with 2000000000.
  replace fuel with (n + S (fuel - S n))%nat by lia.
  rewrite (wsTicks_waiting_prefix env 2000000000 n Hw _ 0 0 [] Hq).
  rewrite !Nat.add_0_l, app_nil_l.
  cbn [wsTicks]. rewrite Hg, Hw, Hnf. simpl. rewrite <- !app_assoc. reflexivity.
Qed.

(** X23.  After an error other than not-found the handler does not skip
    the rest of the poll: having written the error it also writes a status,
    built from the desktop object the failed lookup left behind, and, that
    status not being a running one, goes on polling. *)
Theorem websocket_other_error_continues env (fuel n : nat) d err :
  (forall i pl, ws_write env i pl = None) ->
  (forall j, (j < n)%nat ->
     snd (ws_get env j) = None /\
     (Status_Running (fst (ws_get env j))
      && String.eqb (Status_PodPhase (fst (ws_get env j))) PodRunning)%bool = false) ->
  ws_get env n = (d, Some err) ->
  ws_not_found env err = false ->
  (Status_Running d && String.eqb (Status_PodPhase d) PodRunning)%bool = false ->
  (S n < fuel)%nat ->
  exists rest,
    ws_trace (GetDesktopSessionStatusWebsocket env fuel) =
      concat (map (fun j => [WsTick 2000000000;
                             WsWrite (StatusJSON (toReturnStatus (fst (ws_get env j))))
                                     true])
                  (seq 0 n))
      ++ [WsTick 2000000000; WsWrite (ErrorJSON err) true;
          WsWrite (StatusJSON (toReturnStatus d)) true; WsTick 2000000000]
      ++ rest.
Proof.
  intros Hw Hq Hg Hnf Hnr Hfuel. unfold GetDesktopSessionStatusWebsocket.
  change (2 * gostd.Second) with 2000000000.
  replace fuel with (n + S (S (fuel - S (S n))))%nat by lia.
  rewrite (wsTicks_waiting_prefix env 2000000000 n Hw _ 0 0 [] Hq).
  rewrite !Nat.add_0_l, app_nil_l.
  remember (S (fuel - S (S n))) as f1 eqn:Hf1.
  cbn [wsTicks]. rewrite Hg, Hw, Hnf.
  unfold wsStatus. rewrite Hw. simpl Running. simpl PodPhase. rewrite Hnr.
  subst f1.
  match goal with |- context [wsTicks env ?p (S ?f) ?k ?w ?t] =>
    destruct (wsTicks_extends_tick env p f k w t) as [rest Hrest];
    destruct (wsTicks env p (S f) k w t) as [t1|t1]
  end; simpl in Hrest; subst t1; simpl.
  - exists (rest ++ [WsClose]). rewrite <- !app_assoc. reflexivity.
  - exists rest. rewrite <- !app_assoc. reflexivity.
Qed.

(** X24.  The handler has no poll limit: while the desktop is read without
    error and is not running in phase Running, it keeps writing one status
    every two seconds and never returns. *)
Theorem websocket_polls_forever env (fuel : nat) :
  (forall i pl, ws_write env i pl = None) ->
  (forall j,
     snd (ws_get env j) = None /\
     (Status_Running (fst (ws_get env j))
      && String.eqb (Status_PodPhase (fst (ws_get env j))) PodRunning)%bool = false) ->
  GetDesktopSessionStatusWebsocket env fuel =
    WsLooping
      (concat (map (fun j => [WsTick 2000000000;
                              WsWrite (StatusJSON (toReturnStatus (fst (ws_get env j))))
                                      true])
                   (seq 0 fuel))).
Proof.
  intros Hw Hq. unfold GetDesktopSessionStatusWebsocket.
  change (2 * gostd.Second) with 2000000000.
  replace fuel with (fuel + 0)%nat at 1 by lia.
  rewrite (wsTicks_waiting_prefix env 2000000000 fuel Hw 0 0 0 []
             (fun j _ => Hq (0 + j)%nat)).
  reflexivity.
Qed.

(** A failed write ends the loop at once: the trace of the loop holds at
    most one failed write, followed by its log line and nothing else. *)
Lemma wsTicks_failed_write env period :
  forall (fuel k w : nat) trace,
    (forall pl, WsWrite pl false ∉ trace) ->
    match wsTicks env period fuel k w trace with
    | WsLooping t => forall pl, WsWrite pl false ∉ t
    | WsReturned t =>
        (forall pl, WsWrite pl false ∉ t) \/
        exists t0 pl werr msg,
          t = t0 ++ [WsWrite pl false; WsLog werr msg] /\
          (forall pl', WsWrite pl' false ∉ t0)
    end.
Proof.
  assert (forall (t : list WsEvent) e,
             (forall pl, WsWrite pl false ∉ t) ->
             (forall pl, e <> WsWrite pl false) ->
             forall pl, WsWrite pl false ∉ t ++ [e]) as Hsnoc.
  { intros t e Ht He pl Hin. apply elem_of_app in Hin as [Hin|Hin].
    - exact (Ht pl Hin).
    - apply list_elem_of_singleton in Hin. exact (He pl (eq_sym Hin)). }
  induction fuel as [|fuel IH]; intros k w trace Ht; [exact Ht|].
  cbn [wsTicks].
  assert (forall pl, WsWrite pl false ∉ trace ++ [WsTick period]) as Ht1.
  { apply Hsnoc; [exact Ht | discriminate]. }
  destruct (ws_get env k) as [d [err|]].
  - destruct (ws_write env w (ErrorJSON err)) as [werr|].
    { right. eexists _, _, _, _. split; [reflexivity | exact Ht1]. }
    assert (forall pl, WsWrite pl false ∉
                       (trace ++ [WsTick period]) ++ [WsWrite (ErrorJSON err) true])
      as Ht2.
    { apply Hsnoc; [exact Ht1 | discriminate]. }
    destruct (ws_not_found env err); [left; exact Ht2|].
    unfold wsStatus. destruct (ws_write env (S w) _) as [werr|].
    { right. eexists _, _, _, _. split; [reflexivity | exact Ht2]. }
    assert (forall pl, WsWrite pl false ∉
                       ((trace ++ [WsTick period]) ++ [WsWrite (ErrorJSON err) true])
                       ++ [WsWrite (StatusJSON (toReturnStatus d)) true]) as Ht3.
    { apply Hsnoc; [exact Ht2 | discriminate]. }
    destruct (_ && _)%bool; [left; exact Ht3|].
    apply IH. exact Ht3.
  - unfold wsStatus. destruct (ws_write env w _) as [werr|].
    { right. eexists _, _, _, _. split; [reflexivity | exact Ht1]. }
    assert (forall pl, WsWrite pl false ∉
                       (trace ++ [WsTick period])
                       ++ [WsWrite (StatusJSON (toReturnStatus d)) true]) as Ht3.
    { apply Hsnoc; [exact Ht1 | discriminate]. }
    destruct (_ && _)%bool; [left; exact Ht3|].
    apply IH. exact Ht3.
Qed.

(** X25.  The handler writes nothing after a write has failed: in every
    run, a failed write is followed by its log line and the closing of the
    connection and by nothing else, and no write before it had failed. *)
Theorem websocket_stops_at_failed_write env (fuel : nat) pre pl post :
  ws_trace (GetDesktopSessionStatusWebsocket env fuel) =
    pre ++ WsWrite pl false :: post ->
  (exists werr msg, post = [WsLog werr msg; WsClose]) /\
  (forall pl', WsWrite pl' false ∉ pre).
Proof.
  unfold GetDesktopSessionStatusWebsocket.
  pose proof (wsTicks_failed_write env (2 * gostd.Second) fuel 0 0 []
                ltac:(intros pl0 H0; inversion H0)) as Hinv.
  destruct (wsTicks env (2 * gostd.Second) fuel 0 0 []) as [t|t]; simpl.
  - destruct Hinv as [Hnone | (t0 & pl0 & werr & msg & -> & Hnone)].
    + intros H. exfalso.
      assert (WsWrite pl false ∈ t ++ [WsClose]) as Hin.
      { rewrite H. apply elem_of_app. right. left. }
      apply elem_of_app in Hin as [Hin|Hin]; [exact (Hnone pl Hin)|].
      apply list_elem_of_singleton in Hin. discriminate.
    + rewrite <- app_assoc. simpl. intros H.
      apply List.app_eq_app in H as [l [[-> H] | [-> H]]].
      * destruct l as [|x l]; simpl in H.
        { rewrite app_nil_r in Hnone. injection H as E1 E2. subst.
          split; [eauto | exact Hnone]. }
        injection H as <- H. exfalso.
        apply (Hnone pl). apply elem_of_app. right. left.
      * destruct l as [|x l]; simpl in H.
        { rewrite app_nil_r. injection H as E1 E2. subst.
          split; [eauto | exact Hnone]. }
        injection H as <- H. exfalso.
        assert (WsWrite pl false ∈ l ++ WsWrite pl false :: post) as Hin.
        { apply elem_of_app. right. left. }
        rewrite <- H in Hin.
        apply elem_of_cons in Hin as [Hin|Hin]; [discriminate|].
        apply list_elem_of_singleton in Hin. discriminate.
  - intros H. exfalso. apply (Hinv pl). rewrite H. apply elem_of_app. right. left.
Qed.

End websocket_properties.

(** ** The further theorems on concrete inputs *)

Section extra_witnesses.
Import audio audio_diag.

Lemma waitForProcPort_port_appears_witness :
  waitForProcPort (scenarios.world [] [] scenarios.port_at_third) 5 "tcp" 4242 9004 5 1
    samples.fresh =
  Done None
    (mkState (self samples.fresh)
       (concat (replicate 3 [Tick 1000000000; ProcOpen "/proc/4242/net/tcp"]))).
Proof.
  pose proof (waitForProcPort_port_appears
                (scenarios.world [] [] scenarios.port_at_third) 5 "tcp" 4242 9004 5 1
                samples.fresh 2 "   0: 0100007F:232C 00000000:0000 0A") as H.
  cbv zeta in H. etransitivity; [apply H|]; clear H.
  - lia.
  - intros k Hk. exists "  sl  local_address rem_address   st".
    destruct k as [|[|k]]; [split; vm_compute; reflexivity ..| lia].
  - vm_compute. reflexivity.
  - vm_compute. reflexivity.
  - right. discriminate.
  - lia.
  - vm_compute. reflexivity.
Defined.

Lemma waitForProcPort_read_error_witness :
  waitForProcPort (scenarios.world [] [] scenarios.gone_at_third) 5 "tcp" 4242 9004 5 1
    samples.fresh =
  Done (Some (errors_New "open /proc/4242/net/tcp: no such file or directory"))
    (mkState (self samples.fresh)
       (concat (replicate 3 [Tick 1000000000; ProcOpen "/proc/4242/net/tcp"]))).
Proof.
  pose proof (waitForProcPort_read_error
                (scenarios.world [] [] scenarios.gone_at_third) 5 "tcp" 4242 9004 5 1
                samples.fresh 2
                (errors_New "open /proc/4242/net/tcp: no such file or directory")) as H.
  cbv zeta in H. etransitivity; [apply H|]; clear H.
  - lia.
  - intros k Hk. exists "".
    destruct k as [|[|k]]; [split; vm_compute; reflexivity ..| lia].
  - left. vm_compute. reflexivity.
  - right. discriminate.
  - lia.
  - vm_compute. reflexivity.
Defined.


Lemma waitForProcPort_panics_iff_witness :
  (exists r s', waitForProcPort samples.quiet 3 "tcp" 4242 9004 5 0 samples.fresh
                = Panic r s') <-> 0 <= 0.
Proof.
  apply (waitForProcPort_panics_iff samples.quiet 3 "tcp" 4242 9004 5 0 samples.fresh).
  lia.
Defined.

Lemma Start_success_witness :
  exists s',
    Start (scenarios.world [] [] scenarios.port_at_third) CodecOpus samples.fresh
      = Done None s' /\
    trace s' =
      [PaAddSink "kvdi" "kvdi-playback";
       PaAddSource "virtmic" "kvdi-microphone" "/run/user/1000/pulse/mic.fifo"
         "s16le" 1 16000;
       PaSetDefaultSource "virtmic"; GstStart Pbk; GstStart Buf; Go] /\
    field Rec (self s') = Some scenarios.built_rec /\
    pa.devices (deviceManager (self s')) = ["kvdi"; "virtmic"].
Proof.
  set (env := scenarios.world [] [] scenarios.port_at_third).
  assert (buildPlaybackPipeline CodecOpus samples.fresh =
          Done scenarios.built_pbk
               (mkState (self samples.fresh) (trace samples.fresh ++ []))) as HP
    by (vm_compute; reflexivity).
  assert (buildRecordingPipelines CodecOpus samples.fresh =
          Done (scenarios.built_buf, scenarios.built_rec) samples.fresh) as HR
    by (vm_compute; reflexivity).
  assert (gst_spawn env scenarios.built_pbk = None) as Sp by (vm_compute; reflexivity).
  assert (gst_spawn env scenarios.built_buf = None) as Sb by (vm_compute; reflexivity).
  destruct (Start_success env CodecOpus samples.fresh scenarios.built_pbk []
              scenarios.built_buf scenarios.built_rec samples.fresh
              eq_refl eq_refl eq_refl HP HR Sp Sb)
    as (s' & pbk & buf & HS & Ht & _ & _ & _ & _ & _ & _ & Hr & _ & Hd & _).
  exists s'. split; [exact HS|]. split; [rewrite Ht; vm_compute; reflexivity|].
  split; [exact Hr|]. rewrite Hd. vm_compute. reflexivity.
Defined.

Lemma Start_playback_start_fails_witness :
  exists s',
    Start (scenarios.world ["gst_playback"] [] scenarios.port_at_third) CodecOpus
      samples.fresh = Done (Some (errors_New "spawn gst_playback")) s' /\
    trace s' =
      [PaAddSink "kvdi" "kvdi-playback";
       PaAddSource "virtmic" "kvdi-microphone" "/run/user/1000/pulse/mic.fifo"
         "s16le" 1 16000;
       PaSetDefaultSource "virtmic"; GstStart Pbk] /\
    field Buf (self s') = Some scenarios.built_buf /\
    pa.devices (deviceManager (self s')) = ["kvdi"; "virtmic"].
Proof.
  set (env := scenarios.world ["gst_playback"] [] scenarios.port_at_third).
  assert (buildPlaybackPipeline CodecOpus samples.fresh =
          Done scenarios.built_pbk
               (mkState (self samples.fresh) (trace samples.fresh ++ []))) as HP
    by (vm_compute; reflexivity).
  assert (buildRecordingPipelines CodecOpus samples.fresh =
          Done (scenarios.built_buf, scenarios.built_rec) samples.fresh) as HR
    by (vm_compute; reflexivity).
  assert (gst_spawn env scenarios.built_pbk = Some (errors_New "spawn gst_playback"))
    as Sp by (vm_compute; reflexivity).
  destruct (Start_playback_start_fails env CodecOpus samples.fresh scenarios.built_pbk []
              scenarios.built_buf scenarios.built_rec samples.fresh _
              eq_refl eq_refl eq_refl HP HR Sp)
    as (s' & HS & Ht & _ & Hb & _ & Hd).
  exists s'. split; [exact HS|]. split; [rewrite Ht; vm_compute; reflexivity|].
  split; [exact Hb|]. rewrite Hd. vm_compute. reflexivity.
Defined.

Lemma Start_buffer_start_fails_witness :
  exists s' pbk,
    Start (scenarios.world ["gst_buffer"] [] scenarios.port_at_third) CodecOpus
      samples.fresh = Done (Some (errors_New "spawn gst_buffer")) s' /\
    trace s' =
      [PaAddSink "kvdi" "kvdi-playback";
       PaAddSource "virtmic" "kvdi-microphone" "/run/user/1000/pulse/mic.fifo"
         "s16le" 1 16000;
       PaSetDefaultSource "virtmic"; GstStart Pbk; GstStart Buf] /\
    field Pbk (self s') = Some pbk /\ gst.started pbk = true.
Proof.
  set (env := scenarios.world ["gst_buffer"] [] scenarios.port_at_third).
  assert (buildPlaybackPipeline CodecOpus samples.fresh =
          Done scenarios.built_pbk
               (mkState (self samples.fresh) (trace samples.fresh ++ []))) as HP
    by (vm_compute; reflexivity).
  assert (buildRecordingPipelines CodecOpus samples.fresh =
          Done (scenarios.built_buf, scenarios.built_rec) samples.fresh) as HR
    by (vm_compute; reflexivity).
  assert (gst_spawn env scenarios.built_pbk = None) as Sp by (vm_compute; reflexivity).
  assert (gst_spawn env scenarios.built_buf = Some (errors_New "spawn gst_buffer"))
    as Sb by (vm_compute; reflexivity).
  destruct (Start_buffer_start_fails env CodecOpus samples.fresh scenarios.built_pbk []
              scenarios.built_buf scenarios.built_rec samples.fresh _
              eq_refl eq_refl eq_refl HP HR Sp Sb)
    as (s' & pbk & HS & Ht & Hp & Hst & _).
  exists s', pbk. split; [exact HS|]. split; [rewrite Ht; vm_compute; reflexivity|].
  split; [exact Hp | exact Hst].
Defined.

Lemma Start_then_Close_witness :
  Start samples.quiet CodecVorbis samples.fresh =
    Done None (samples.state_after (Start samples.quiet CodecVorbis samples.fresh)) /\
  exists s2,
    Close samples.quiet
      (samples.state_after (Start samples.quiet CodecVorbis samples.fresh))
      = Done None s2 /\
    IsClosed s2 = Done true s2 /\
    pa.devices (deviceManager (self s2)) = [].
Proof.
  assert (Start samples.quiet CodecVorbis samples.fresh =
          Done None (samples.state_after (Start samples.quiet CodecVorbis samples.fresh)))
    as HS by (vm_compute; reflexivity).
  split; [exact HS|].
  destruct (Start_then_Close samples.quiet samples.quiet CodecVorbis samples.fresh _ HS
              (fun _ => eq_refl))
    as (s2 & HC & _ & HI & _ & Hd & _).
  exists s2. auto.
Defined.

Lemma Start_func1_starts_recorder_witness :
  let env := scenarios.world [] [] scenarios.port_at_third in
  let s := samples.started samples.quiet in
  exists s' rec',
    Start_func1 env 5 s = Done tt s' /\
    trace s' =
      trace s ++ concat (replicate 3 [Tick 1000000000; ProcOpen "/proc/4242/net/tcp"])
      ++ [GstStart Rec] /\
    field Rec (self s') = Some rec' /\ gst.started rec' = true.
Proof.
  intros env s.
  assert (field Buf (self s) = Some (samples.pipeline Buf s)) as Hb
    by (vm_compute; reflexivity).
  assert (field Rec (self s) = Some (samples.pipeline Rec s)) as Hr
    by (vm_compute; reflexivity).
  destruct (Start_func1_starts_recorder env 5 s _ _ 2
              "   0: 0100007F:232C 00000000:0000 0A" Hb Hr)
    as (s' & rec' & HS & Ht & HR & Hst & _).
  - intros k Hk. exists "  sl  local_address rem_address   st".
    destruct k as [|[|k]]; [split; vm_compute; reflexivity ..| lia].
  - vm_compute. reflexivity.
  - vm_compute. reflexivity.
  - lia.
  - exists s', rec'. split; [exact HS|]. split; [rewrite Ht; vm_compute; reflexivity|].
    split; [exact HR|]. rewrite Hst. vm_compute. reflexivity.
Defined.

Lemma Start_func1_read_error_witness :
  let env := scenarios.world [] [] scenarios.gone_at_third in
  let s := samples.started samples.quiet in
  Start_func1 env 5 s =
    Done tt
      (mkState (self s)
         (trace s ++ concat (replicate 3 [Tick 1000000000; ProcOpen "/proc/4242/net/tcp"])
          ++ [LogError (mkLogger ["audio_buffer"])
                (errors_New "open /proc/4242/net/tcp: no such file or directory")
                "Buffer port did not become available"])).
Proof.
  intros env s.
  assert (field Buf (self s) = Some (samples.pipeline Buf s)) as Hb
    by (vm_compute; reflexivity).
  pose proof (Start_func1_read_error env 5 s _ 2
                (errors_New "open /proc/4242/net/tcp: no such file or directory") Hb)
    as H.
  cbv zeta in H. etransitivity; [apply H|]; clear H.
  - intros k Hk. exists "".
    destruct k as [|[|k]]; [split; vm_compute; reflexivity ..| lia].
  - left. vm_compute. reflexivity.
  - lia.
  - vm_compute. reflexivity.
Defined.

Lemma Errors_collects_witness :
  let s := samples.started samples.quiet in
  let perr := fun p : gst.Pipeline =>
    if gst.started p then None else Some (errors_New "signal: killed") in
  Errors perr s = Done (Some [errors_New "signal: killed"]) s.
Proof.
  intros s perr.
  assert (field Pbk (self s) = Some (samples.pipeline Pbk s)) as Hp
    by (vm_compute; reflexivity).
  assert (field Buf (self s) = Some (samples.pipeline Buf s)) as Hb
    by (vm_compute; reflexivity).
  assert (field Rec (self s) = Some (samples.pipeline Rec s)) as Hr
    by (vm_compute; reflexivity).
  destruct (Errors_collects perr s _ _ _ Hp Hb Hr) as (r & HE & _ & Hsome).
  rewrite HE. destruct r as [errs|].
  - destruct (Hsome errs eq_refl) as [-> _]. vm_compute. reflexivity.
  - exfalso. vm_compute in HE. discriminate HE.
Defined.

Lemma Stderr_joins_witness :
  let s := samples.started samples.quiet in
  Stderr (fun _ => "") s = Done " :  : " s.
Proof.
  intros s.
  assert (field Pbk (self s) = Some (samples.pipeline Pbk s)) as Hp
    by (vm_compute; reflexivity).
  assert (field Buf (self s) = Some (samples.pipeline Buf s)) as Hb
    by (vm_compute; reflexivity).
  assert (field Rec (self s) = Some (samples.pipeline Rec s)) as Hr
    by (vm_compute; reflexivity).
  destruct (Stderr_joins (fun _ => "") s _ _ _ Hp Hb Hr) as (r & HS & -> & _).
  exact HS.
Defined.

Lemma Close_after_failed_pipeline_start_witness :
  let env := scenarios.world ["gst_buffer"] [] scenarios.port_at_third in
  let s1 := samples.state_after (Start env CodecOpus samples.fresh) in
  Start env CodecOpus samples.fresh = Done (Some (errors_New "spawn gst_buffer")) s1 /\
  exists s2,
    Close samples.quiet s1 = Done None s2 /\
    IsClosed s2 = Done true s2 /\
    pa.devices (deviceManager (self s2)) = [].
Proof.
  intros env s1.
  assert (Start env CodecOpus samples.fresh =
          Done (Some (errors_New "spawn gst_buffer")) s1) as HS
    by (vm_compute; reflexivity).
  split; [exact HS|].
  destruct (Close_after_failed_pipeline_start env samples.quiet CodecOpus samples.fresh
              _ s1 eq_refl eq_refl eq_refl HS (fun _ => eq_refl))
    as (s2 & HC & _ & HI & Hd).
  exists s2. auto.
Defined.

End extra_witnesses.

Section extra_witnesses_k8s.
Import k8sutil k8sutil_pod api.

Lemma Sprintf_x_faithful_witness :
  String.length (Sprintf_x [Byte.x00; Byte.xff; Byte.x1a]) = 6%nat /\
  (Sprintf_x [Byte.x00; Byte.xff; Byte.x1a] = Sprintf_x [Byte.x00; Byte.xff; Byte.x1a] ->
   [Byte.x00; Byte.xff; Byte.x1a] = [Byte.x00; Byte.xff; Byte.x1a]).
Proof.
  exact (Sprintf_x_faithful [Byte.x00; Byte.xff; Byte.x1a] [Byte.x00; Byte.xff; Byte.x1a]).
Defined.

Lemma CreationSpecsEqual_partial_equivalence_witness :
  let key := "kvdi.io/creation-spec" in
  let bare := mkObjectMeta "desktop" "default" None None in
  let set := mkObjectMeta "desktop" "default" None (Some {[ key := "00ff" ]}) in
  CreationSpecsEqual key bare bare = false /\
  CreationSpecsEqual key set set = true /\
  CreationSpecsEqual key set bare = CreationSpecsEqual key bare set.
Proof.
  intros key bare set.
  destruct (CreationSpecsEqual_partial_equivalence key) as (Hsym & _ & Hrefl).
  split; [|split].
  - destruct (CreationSpecsEqual key bare bare) eqn:E; [|reflexivity].
    apply Hrefl in E. destruct E as [v E]. discriminate E.
  - apply Hrefl. exists "00ff". reflexivity.
  - apply Hsym.
Defined.


Lemma GetThisPodName_spec_witness :
  GetThisPodName {[ "POD_NAME" := "kvdi-app-0" ]} = ("kvdi-app-0", None) /\
  GetThisPodName {[ "POD_NAME" := "" ]} =
    ("", Some (errors_New "No POD_NAME in the environment")).
Proof.
  split.
  - apply (GetThisPodName_spec {[ "POD_NAME" := "kvdi-app-0" ]});
      [reflexivity | discriminate].
  - apply (GetThisPodName_spec {[ "POD_NAME" := "" ]}). right. reflexivity.
Defined.

Lemma GetThisPod_spec_witness :
  let c : Client string := fun nn _ => (nnNamespace nn +:+ "/" +:+ nnName nn, None) in
  GetThisPod "" {[ "POD_NAME" := "kvdi-app-0"; "POD_NAMESPACE" := "kvdi" ]} c =
    (Some "kvdi/kvdi-app-0", None) /\
  GetThisPod "" {[ "POD_NAME" := "kvdi-app-0" ]} c =
    (None, Some (errors_New "No POD_NAMESPACE in the environment")).
Proof.
  intros c. split.
  - destruct (GetThisPod_spec string ""
                {[ "POD_NAME" := "kvdi-app-0"; "POD_NAMESPACE" := "kvdi" ]} c)
      as (H & _).
    rewrite (H "kvdi-app-0" "kvdi");
      [reflexivity | reflexivity | discriminate | reflexivity | discriminate].
  - destruct (GetThisPod_spec string "" {[ "POD_NAME" := "kvdi-app-0" ]} c)
      as (_ & _ & H).
    apply (H "kvdi-app-0"); [reflexivity | discriminate | left; reflexivity].
Defined.

Lemma websocket_returns_when_running_witness :
  GetDesktopSessionStatusWebsocket scenarios.ws_boots 9 =
    WsReturned
      [WsTick 2000000000; WsWrite (StatusJSON (mkDesktopStatus false "Pending")) true;
       WsTick 2000000000; WsWrite (StatusJSON (mkDesktopStatus false "Pending")) true;
       WsTick 2000000000; WsWrite (StatusJSON (mkDesktopStatus true "Running")) true;
       WsClose].
Proof.
  etransitivity;
    [apply (websocket_returns_when_running scenarios.ws_boots 9 2)|].
  - intros i pl. reflexivity.
  - intros j Hj. destruct j as [|[|j]]; [split; reflexivity ..| lia].
  - reflexivity.
  - reflexivity.
  - reflexivity.
  - lia.
  - vm_compute. reflexivity.
Defined.

Lemma websocket_not_found_ends_witness :
  GetDesktopSessionStatusWebsocket scenarios.ws_deleted 9 =
    WsReturned
      [WsTick 2000000000; WsWrite (StatusJSON (mkDesktopStatus false "Pending")) true;
       WsTick 2000000000; WsWrite (ErrorJSON (errors_New "desktops dev not found")) true;
       WsClose].
Proof.
  etransitivity;
    [apply (websocket_not_found_ends scenarios.ws_deleted 9 1
              (mkDesktop false "") (errors_New "desktops dev not found"))|].
  - intros i pl. reflexivity.
  - intros j Hj. destruct j as [|j]; [split; reflexivity | lia].
  - reflexivity.
  - reflexivity.
  - lia.
  - vm_compute. reflexivity.
Defined.

Lemma websocket_other_error_continues_witness :
  exists rest,
    ws_trace (GetDesktopSessionStatusWebsocket scenarios.ws_flaky 9) =
      [WsTick 2000000000; WsWrite (ErrorJSON (errors_New "etcd timeout")) true;
       WsWrite (StatusJSON (mkDesktopStatus false "")) true; WsTick 2000000000]
      ++ rest.
Proof.
  destruct (websocket_other_error_continues scenarios.ws_flaky 9 0
              (mkDesktop false "") (errors_New "etcd timeout")) as [rest H].
  - intros i pl. reflexivity.
  - intros j Hj. lia.
  - reflexivity.
  - reflexivity.
  - reflexivity.
  - lia.
  - exists rest. exact H.
Defined.

Lemma websocket_polls_forever_witness :
  let env := mkWsEnv (fun _ => (mkDesktop true "Pending", None))
                     (fun _ => false) (fun _ _ => None) in
  GetDesktopSessionStatusWebsocket env 2 =
    WsLooping
      [WsTick 2000000000; WsWrite (StatusJSON (mkDesktopStatus true "Pending")) true;
       WsTick 2000000000; WsWrite (StatusJSON (mkDesktopStatus true "Pending")) true].
Proof.
  intros env.
  etransitivity; [apply (websocket_polls_forever env 2)|].
  - intros i pl. reflexivity.
  - intros j. split; reflexivity.
  - vm_compute. reflexivity.
Defined.

Lemma websocket_stops_at_failed_write_witness :
  let st := StatusJSON (mkDesktopStatus false "Pending") in
  ws_trace (GetDesktopSessionStatusWebsocket scenarios.ws_broken 9) =
    [WsTick 2000000000; WsWrite st true; WsTick 2000000000]
    ++ WsWrite st false
    :: [WsLog (errors_New "broken pipe") "Failed to write status to websocket connection";
        WsClose] /\
  exists werr msg,
    [WsLog (errors_New "broken pipe") "Failed to write status to websocket connection";
     WsClose] = [WsLog werr msg; WsClose].
Proof.
  intros st.
  assert (ws_trace (GetDesktopSessionStatusWebsocket scenarios.ws_broken 9) =
          [WsTick 2000000000; WsWrite st true; WsTick 2000000000]
          ++ WsWrite st false
          :: [WsLog (errors_New "broken pipe")
                "Failed to write status to websocket connection"; WsClose]) as H
    by (vm_compute; reflexivity).
  split; [exact H|].
  exact (proj1 (websocket_stops_at_failed_write scenarios.ws_broken 9 _ _ _ H)).
Defined.

End extra_witnesses_k8s.

Section heap_witnesses.
Import k8sutil k8sutil_heap.



Lemma SetCreationSpecAnnotation_idempotent_detached_witness :
  exists h1,
    k8sutil_heap.SetCreationSpecAnnotation scenarios.render scenarios.digest
      scenarios.spec_key (Detached 0) scenarios.desktop = Some (None, h1) /\
    k8sutil_heap.SetCreationSpecAnnotation scenarios.render scenarios.digest
      scenarios.spec_key (Detached 0) h1 = Some (None, h1).
Proof.
  eexists.
  assert (k8sutil_heap.SetCreationSpecAnnotation scenarios.render scenarios.digest
            scenarios.spec_key (Detached 0) scenarios.desktop
          = Some (None,
                  store (Detached 0)
                    (snd (k8sutil.SetCreationSpecAnnotation scenarios.render
                            scenarios.digest scenarios.spec_key
                            (mkObjectMeta "found" "default" None None)
                            (object scenarios.desktop)))
                    scenarios.desktop)) as H by (vm_compute; reflexivity).
  split; [exact H|].
  exact (SetCreationSpecAnnotation_idempotent_detached string scenarios.render
           scenarios.digest scenarios.spec_key 0 scenarios.desktop _ _ H).
Defined.

End heap_witnesses.
